(** * Transparency-log verification of a signed entity

    A shallow embedding of [pkg/verifier/tlog.go]: the method
    [ArtifactTransparencyLogVerifier.Verify], its constructor
    [NewArtifactTransparencyLogVerifier] and the helper [getRekorClient].

    The Go code is a sequence of calls to collaborators (the signed entity,
    the [tlog] package, the Rekor client, the [x509]/[pem] decoders) with an
    early [return err] after each of them.  It is embedded in a small monad
    that carries the result of the Go function and the list of collaborator
    calls made so far, so that statements of the form "fails before any
    network call" are statements about that list.

    What the model takes for granted:
    - a collaborator answers as a function of its arguments (the same query
      gets the same answer during a run);
    - pointers are never [nil]: [LogKeyID], [LogIndex], the values of the
      [tlogVerifiers] map and the trusted root are held by value;
    - the Go [int] threshold and the [int64] log index are integers of [Z];
      the code only compares and prints them;
    - a Go map that is ranged over is the list of its pairs in the order the
      loop visits them. *)

From Stdlib Require Import ZArith String Ascii List Permutation DecimalString.
From Stdlib Require DecimalPos DecimalZ.
From stdpp Require Import base gmap strings list.

Open Scope Z_scope.

(** ** Go values *)

(** A Go [error] that is not [nil].  Every error this file creates is built by
    [errors.New] or by [fmt.Errorf] without [%w], which is [errors.New] of the
    formatted text; an error is modelled by that text.  A function returning
    [error] is modelled as returning [option error], [None] being [nil]. *)
Inductive error : Type :=
| errors_New (text : string).

Definition Error (e : error) : string :=
  match e with errors_New text => text end.

(** The verb [%d] of [fmt]: a signed decimal numeral. *)
Definition fmt_d (z : Z) : string := NilZero.string_of_int (Z.to_int z).

(** [hex.EncodeToString]: two lower-case digits per byte,
    [hextable[v>>4]] then [hextable[v&0x0f]]. *)
Definition hextable : string := "0123456789abcdef".

Definition hexdigit (n : N) : ascii :=
  match String.get (N.to_nat n) hextable with
  | Some c => c
  | None => "0"%char
  end.

Fixpoint hex_EncodeToString (src : string) : string :=
  match src with
  | EmptyString => EmptyString
  | String v rest =>
      String (hexdigit (N.shiftr (N_of_ascii v) 4))
        (String (hexdigit (N.land (N_of_ascii v) 15))
           (hex_EncodeToString rest))
  end.

(** [bytes.Equal]: same length and the same bytes. *)
Fixpoint bytes_Equal (a b : list Byte.byte) : bool :=
  match a, b with
  | [], [] => true
  | x :: a', y :: b' => Byte.eqb x y && bytes_Equal a' b'
  | _, _ => false
  end.

(** ** The errors [Verify] creates, named as in the error taxonomy *)

(** [fmt.Errorf("not enough transparency log entries: %d < %d", len(entries), p.threshold)] *)
Definition InsufficientEvidence (count threshold : Z) : error :=
  errors_New ("not enough transparency log entries: "
              +:+ fmt_d count +:+ " < " +:+ fmt_d threshold).

(** [fmt.Errorf("unable to find tlog information for key %s", hex64Key)] *)
Definition UnknownLogIdentifier (hex64Key : string) : error :=
  errors_New ("unable to find tlog information for key " +:+ hex64Key).

(** [fmt.Errorf("unable to locate log entry %d", *logIndex)] *)
Definition LogEntryNotFound (logIndex : Z) : error :=
  errors_New ("unable to locate log entry " +:+ fmt_d logIndex).

Definition AmbiguousLogEntry : error :=
  errors_New "too many log entries returned".

Definition SignatureMismatch : error :=
  errors_New "transparency log signature does not match".

Definition CertificateMismatch : error :=
  errors_New "transparency log certificate does not match".

Definition TimeOutOfRange : error :=
  errors_New "Integrated time outside certificate validity".

(** Created by [getRekorClient] when [pem.Decode] finds no block. *)
Definition PublicKeyDecodeFailed : error :=
  errors_New "failed to decode public key of server".



(** A Go result [(T, error)]. *)
Inductive result (A : Type) : Type :=
| Ok (a : A)
| Err (e : error).
Arguments Ok {A} a.
Arguments Err {A} e.

Section Verifier.

(** Types declared outside this file: [x509.Certificate], [time.Time], the
    Rekor body and signed entry timestamp of a [tlog.Entry], the generated
    Rekor client, [signature.Verifier], [crypto.PublicKey],
    [models.LogEntryAnon] and the key material of a [root.TlogVerifier]. *)
Context {x509_Certificate time_Time EntryBody Client SigVerifier PublicKey
         LogEntryAnon KeyMaterial : Type}.

(** *** Data *)

(** [tlog.Entry], through the accessors [Verify] uses.  [LogKeyID] and
    [LogIndex] return pointers in Go; the model holds what they point to. *)
Record Entry : Type := {
  LogKeyID : string;
  LogIndex : Z;
  Signature : list Byte.byte;
  Certificate : x509_Certificate;
  IntegratedTime : time_Time;
  body : EntryBody
}.

(** [root.TlogVerifier]: one trusted log. *)
Record TlogVerifier : Type := {
  BaseURL : string;
  keyMaterial : KeyMaterial
}.

(** [root.TrustedRoot], through its method [TlogVerifiers()]. *)
Record TrustedRoot : Type := {
  TlogVerifiers : gmap string TlogVerifier
}.

(** The interface [SignatureContent]. *)
Record SignatureContentT : Type := {
  GetSignature : list Byte.byte
}.

(** The interface [VerificationContent]. *)
Record VerificationContentT : Type := {
  CompareKey : x509_Certificate -> bool;
  ValidAtTime : time_Time -> bool
}.

(** The interface [SignedEntity]: each method returns a value or an error. *)
Record SignedEntity : Type := {
  TlogEntries : result (list Entry);
  SignatureContent : result SignatureContentT;
  VerificationContent : result VerificationContentT
}.

(** [models.LogEntry] is a Go map from entry UUID to [LogEntryAnon]; it is
    held as its key/value pairs in the order [range] visits them. *)
Definition LogEntry : Type := list (string * LogEntryAnon).

Record ArtifactTransparencyLogVerifier : Type := {
  trustedRoot : TrustedRoot;
  threshold : Z;
  online : bool;
  tlogVerifiers : gmap string TlogVerifier
}.

Definition NewArtifactTransparencyLogVerifier (trustedRoot : TrustedRoot)
    (threshold : Z) (online : bool)
    (tlogVerifiers : gmap string TlogVerifier)
    : ArtifactTransparencyLogVerifier :=
  {| trustedRoot := trustedRoot;
     threshold := threshold;
     online := online;
     tlogVerifiers := tlogVerifiers |}.

(** *** Collaborators

    The functions [Verify] and [getRekorClient] call in other packages.
    Each answers as a function of its arguments. *)
Record Collaborators : Type := {
  tlog_ValidateEntry : Entry -> option error;
  tlog_VerifySET : Entry -> gmap string TlogVerifier -> option error;
  rekorClient_GetRekorClient : string -> result Client;
  Pubkey_GetPublicKey : Client -> result string;
  pem_Decode : string -> option (list Byte.byte);
  x509_ParsePKIXPublicKey : list Byte.byte -> result PublicKey;
  signature_LoadVerifier : PublicKey -> result SigVerifier;
  Entries_SearchLogQuery : Client -> list Z -> result (list LogEntry);
  rekorVerify_VerifyLogEntry : LogEntryAnon -> SigVerifier -> option error
}.

(** *** Calls

    One event per call on a collaborator: the three methods of the entity, the
    functions of [Collaborators] and the two predicates of the verification
    content.  Field accessors of an entry, [GetSignature], [TlogVerifiers],
    [hex.EncodeToString] and [bytes.Equal] are computed in place. *)
Inductive Event : Type :=
| CallTlogEntries
| CallSignatureContent
| CallVerificationContent
| CallValidateEntry (entry : Entry)
| CallVerifySET (entry : Entry)
| CallGetRekorClient (baseURL : string)
| CallGetPublicKey (client : Client)
| CallPemDecode (payload : string)
| CallParsePKIXPublicKey (block : list Byte.byte)
| CallLoadVerifier (pub : PublicKey)
| CallSearchLogQuery (client : Client) (logIndexes : list Z)
| CallVerifyLogEntry (v : LogEntryAnon) (verifier : SigVerifier)
| CallCompareKey (cert : x509_Certificate)
| CallValidAtTime (t : time_Time).

(** Calls that reach a log over the network. *)
Definition isNetwork (ev : Event) : bool :=
  match ev with
  | CallGetRekorClient _ | CallGetPublicKey _ | CallSearchLogQuery _ _ => true
  | _ => false
  end.

(** Calls that check or decode cryptographic material. *)
Definition isCryptographic (ev : Event) : bool :=
  match ev with
  | CallVerifySET _ | CallPemDecode _ | CallParsePKIXPublicKey _
  | CallLoadVerifier _ | CallVerifyLogEntry _ _ => true
  | _ => false
  end.

(** Calls made from inside the loop over the entries. *)
Definition isPerEntryWork (ev : Event) : bool :=
  match ev with
  | CallTlogEntries | CallSignatureContent | CallVerificationContent => false
  | _ => true
  end.

Definition isVerifyLogEntry (ev : Event) : bool :=
  match ev with CallVerifyLogEntry _ _ => true | _ => false end.

(** Calls made by [getRekorClient]. *)
Definition isResolution (ev : Event) : bool :=
  match ev with
  | CallGetRekorClient _ | CallGetPublicKey _ | CallPemDecode _
  | CallParsePKIXPublicKey _ | CallLoadVerifier _ => true
  | _ => false
  end.

(** *** The monad: a result and the calls made to reach it *)
Definition M (A : Type) : Type := (result A * list Event)%type.

Definition outcome {A} (m : M A) : result A := fst m.
Definition calls {A} (m : M A) : list Event := snd m.

#[global] Instance M_ret : MRet M := fun A a => (Ok a, []).

#[global] Instance M_bind : MBind M := fun A B f m =>
  match m with
  | (Ok a, t) => let '(r, t') := f a in (r, t ++ t')
  | (Err e, t) => (Err e, t)
  end.

(** [return err] *)
Definition fail {A} (e : error) : M A := (Err e, []).

(** A call returning [(T, error)]. *)
Definition call {A} (ev : Event) (r : result A) : M A := (r, [ev]).

(** A call returning [error]. *)
Definition callE (ev : Event) (r : option error) : M unit :=
  match r with
  | None => (Ok tt, [ev])
  | Some e => (Err e, [ev])
  end.

(** A call that cannot fail. *)
Definition callV {A} (ev : Event) (a : A) : M A := (Ok a, [ev]).

(** [Verify] returned [nil]. *)
Definition succeeds (m : M unit) : Prop := outcome m = Ok tt.

(** [Verify] returned the error [e]. *)
Definition failsWith (m : M unit) (e : error) : Prop := outcome m = Err e.

Variable ext : Collaborators.

(** *** [getRekorClient] *)
Definition getRekorClient (baseURL : string) : M (Client * SigVerifier) :=
  client ← call (CallGetRekorClient baseURL)
                (rekorClient_GetRekorClient ext baseURL);
  keyResp ← call (CallGetPublicKey client) (Pubkey_GetPublicKey ext client);
  block ← callV (CallPemDecode keyResp) (pem_Decode ext keyResp);
  match block with
  | None => fail PublicKeyDecodeFailed
  | Some blockBytes =>
      pub ← call (CallParsePKIXPublicKey blockBytes)
                 (x509_ParsePKIXPublicKey ext blockBytes);
      verifier ← call (CallLoadVerifier pub) (signature_LoadVerifier ext pub);
      mret (client, verifier)
  end.

(** *** The body of the loop of [Verify], one definition per check *)

(** [tlog.ValidateEntry(entry)] *)
Definition structuralCheck (entry : Entry) : M unit :=
  callE (CallValidateEntry entry) (tlog_ValidateEntry ext entry).

(** [tlog.VerifySET(entry, p.trustedRoot.TlogVerifiers())] *)
Definition offlineCheck (p : ArtifactTransparencyLogVerifier)
    (entry : Entry) : M unit :=
  callE (CallVerifySET entry)
        (tlog_VerifySET ext entry (TlogVerifiers (trustedRoot p))).

(** [for _, v := range logEntry { err = rekorVerify.VerifyLogEntry(...) }] *)
Fixpoint verifyLogEntries (logEntry : LogEntry) (verifier : SigVerifier)
    : M unit :=
  match logEntry with
  | [] => mret tt
  | (_, v) :: rest =>
      callE (CallVerifyLogEntry v verifier)
            (rekorVerify_VerifyLogEntry ext v verifier);;
      verifyLogEntries rest verifier
  end.

(** The [else] branch of [if !p.online].  The three cases on [payload] are
    [len(resp.Payload) == 0], [len(resp.Payload) > 1] and the remaining one,
    where [resp.Payload[0]] is the only element. *)
Definition onlineCheck (p : ArtifactTransparencyLogVerifier)
    (entry : Entry) : M unit :=
  let keyID := LogKeyID entry in
  let hex64Key := hex_EncodeToString keyID in
  match tlogVerifiers p !! hex64Key with
  | None => fail (UnknownLogIdentifier hex64Key)
  | Some tlogVerifier =>
      '(client, verifier) ← getRekorClient (BaseURL tlogVerifier);
      let logIndex := LogIndex entry in
      payload ← call (CallSearchLogQuery client [logIndex])
                     (Entries_SearchLogQuery ext client [logIndex]);
      match payload with
      | [] => fail (LogEntryNotFound logIndex)
      | _ :: _ :: _ => fail AmbiguousLogEntry
      | [logEntry] => verifyLogEntries logEntry verifier
      end
  end.

(** [if !p.online { ... } else { ... }] *)
Definition strategyCheck (p : ArtifactTransparencyLogVerifier)
    (entry : Entry) : M unit :=
  if negb (online p) then offlineCheck p entry else onlineCheck p entry.

(** [if !bytes.Equal(entry.Signature(), entitySignature)] *)
Definition signatureCheck (entitySignature : list Byte.byte)
    (entry : Entry) : M unit :=
  if negb (bytes_Equal (Signature entry) entitySignature)
  then fail SignatureMismatch
  else mret tt.

(** [if !verificationContent.CompareKey(entry.Certificate())] *)
Definition certificateCheck (verificationContent : VerificationContentT)
    (entry : Entry) : M unit :=
  same ← callV (CallCompareKey (Certificate entry))
               (CompareKey verificationContent (Certificate entry));
  if negb same then fail CertificateMismatch else mret tt.

(** [if !verificationContent.ValidAtTime(entry.IntegratedTime())] *)
Definition timeCheck (verificationContent : VerificationContentT)
    (entry : Entry) : M unit :=
  valid ← callV (CallValidAtTime (IntegratedTime entry))
                (ValidAtTime verificationContent (IntegratedTime entry));
  if negb valid then fail TimeOutOfRange else mret tt.

(** The three checks against the entity's own claims, lines 105-120. *)
Definition crossChecks (entitySignature : list Byte.byte)
    (verificationContent : VerificationContentT) (entry : Entry) : M unit :=
  signatureCheck entitySignature entry;;
  certificateCheck verificationContent entry;;
  timeCheck verificationContent entry.

(** One iteration of [for _, entry := range entries]. *)
Definition verifyEntry (p : ArtifactTransparencyLogVerifier)
    (entitySignature : list Byte.byte)
    (verificationContent : VerificationContentT) (entry : Entry) : M unit :=
  structuralCheck entry;;
  strategyCheck p entry;;
  crossChecks entitySignature verificationContent entry.

(** [for _, entry := range entries { ... }], left at the first error. *)
Fixpoint verifyEntries (p : ArtifactTransparencyLogVerifier)
    (entitySignature : list Byte.byte)
    (verificationContent : VerificationContentT) (entries : list Entry)
    : M unit :=
  match entries with
  | [] => mret tt
  | entry :: rest =>
      verifyEntry p entitySignature verificationContent entry;;
      verifyEntries p entitySignature verificationContent rest
  end.

(** *** [Verify] *)
Definition Verify (p : ArtifactTransparencyLogVerifier)
    (entity : SignedEntity) : M unit :=
  entries ← call CallTlogEntries (TlogEntries entity);
  if Z.of_nat (length entries) <? threshold p
  then fail (InsufficientEvidence (Z.of_nat (length entries)) (threshold p))
  else
    sigContent ← call CallSignatureContent (SignatureContent entity);
    let entitySignature := GetSignature sigContent in
    verificationContent ←
      call CallVerificationContent (VerificationContent entity);
    verifyEntries p entitySignature verificationContent entries.

End Verifier.


(** ** A concrete world

    Collaborators small enough to evaluate: certificates, verifiers, keys and
    remote log records are numbers, a time is a number of seconds, a client is
    the base URL it was built for, and the body of an entry is the answer of
    [tlog.ValidateEntry] on it. *)

Module Example.

Definition entry (keyID : string) (logIndex : Z) (sig : list Byte.byte)
    (cert : nat) (time : Z) (wellFormed : bool) : @Entry nat Z bool :=
  {| LogKeyID := keyID;
     LogIndex := logIndex;
     Signature := sig;
     Certificate := cert;
     IntegratedTime := time;
     body := wellFormed |}.

Definition rekor : @TlogVerifier nat :=
  {| BaseURL := "https://rekor.example"; keyMaterial := 1%nat |}.

(** The log known to the verifier has key identifier ["k1"], in hex ["6b31"]. *)
Definition verifiers : gmap string (@TlogVerifier nat) :=
  {[ "6b31"%string := rekor ]}.

Definition root : @TrustedRoot nat := {| TlogVerifiers := verifiers |}.

Definition unsupported : error := errors_New "unsupported entry type".
Definition badSET : error := errors_New "unable to verify SET".
Definition searchFailed : error := errors_New "search failed".
Definition badProof : error := errors_New "inclusion proof invalid".
Definition parseError : error := errors_New "bundle: missing field".

(** The log answers index 0 with no record, index 1 with one record holding
    one entry, index 2 with two records, index 3 with one record holding no
    entry, and fails on every other query. *)
Definition ext : @Collaborators nat Z bool string nat nat nat nat :=
  {| tlog_ValidateEntry (e : @Entry nat Z bool) := if body e then None else Some unsupported;
     tlog_VerifySET (e : @Entry nat Z bool) (vs : gmap string (@TlogVerifier nat)) :=
       match vs !! hex_EncodeToString (LogKeyID e) with
       | Some _ => None
       | None => Some badSET
       end;
     rekorClient_GetRekorClient (url : string) := Ok url;
     Pubkey_GetPublicKey (c : string) := Ok "-----BEGIN PUBLIC KEY-----"%string;
     pem_Decode (s : string) := Some [Byte.x30];
     x509_ParsePKIXPublicKey (b : list Byte.byte) := Ok 7%nat;
     signature_LoadVerifier (pub : nat) := Ok pub;
     Entries_SearchLogQuery (c : string) (idxs : list Z) :=
       match idxs with
       | [0] => Ok []
       | [1] => Ok [[("uuid-1"%string, 1%nat)]]
       | [2] => Ok [[("uuid-2"%string, 1%nat)]; [("uuid-3"%string, 1%nat)]]
       | [3] => Ok [[]]
       | _ => Err searchFailed
       end;
     rekorVerify_VerifyLogEntry (v verifier : nat) :=
       if (v =? 1)%nat then None else Some badProof |}.

Definition signature : list Byte.byte := [Byte.x01; Byte.x02].

Definition sigContent : SignatureContentT := {| GetSignature := signature |}.

(** The signing certificate is number 42, valid from 100 to 200. *)
Definition verContent : @VerificationContentT nat Z :=
  {| CompareKey (c : nat) := (c =? 42)%nat;
     ValidAtTime (t : Z) := (100 <=? t) && (t <=? 200) |}.

Definition entity (entries : list (@Entry nat Z bool)) : SignedEntity :=
  {| TlogEntries := Ok entries;
     SignatureContent := Ok sigContent;
     VerificationContent := Ok verContent |}.

(** An entity whose signature content does not parse. *)
Definition entityNoSignature (entries : list (@Entry nat Z bool))
    : SignedEntity :=
  {| TlogEntries := Ok entries;
     SignatureContent := Err parseError;
     VerificationContent := Ok verContent |}.

(** An entry that passes every check, recorded at [logIndex]. *)
Definition good (logIndex : Z) : @Entry nat Z bool :=
  entry "k1" logIndex signature 42 150 true.

(** An entry carrying another signature than the entity's. *)
Definition otherSignature (logIndex : Z) : @Entry nat Z bool :=
  entry "k1" logIndex [Byte.x09] 42 150 true.

Definition offlineVerifier (threshold : Z) : ArtifactTransparencyLogVerifier :=
  NewArtifactTransparencyLogVerifier root threshold false ∅.

Definition onlineVerifier (threshold : Z) : ArtifactTransparencyLogVerifier :=
  NewArtifactTransparencyLogVerifier root threshold true verifiers.


Definition mismatchLast : SignedEntity :=
  entity [good 1; otherSignature 1].

(** An entry of a log the verifier does not know: key identifier ["zz"]. *)
Definition unknownLog : @Entry nat Z bool :=
  entry "zz" 1 signature 42 150 true.

(** A structurally invalid entry. *)
Definition malformed : @Entry nat Z bool :=
  entry "k1" 1 signature 42 150 false.

Definition unreachable : error := errors_New "connection refused".

(** The same world with every log out of reach. *)
Definition extDown : @Collaborators nat Z bool string nat nat nat nat :=
  {| tlog_ValidateEntry := tlog_ValidateEntry ext;
     tlog_VerifySET := tlog_VerifySET ext;
     rekorClient_GetRekorClient (url : string) := Err unreachable;
     Pubkey_GetPublicKey := Pubkey_GetPublicKey ext;
     pem_Decode := pem_Decode ext;
     x509_ParsePKIXPublicKey := x509_ParsePKIXPublicKey ext;
     signature_LoadVerifier := signature_LoadVerifier ext;
     Entries_SearchLogQuery := Entries_SearchLogQuery ext;
     rekorVerify_VerifyLogEntry := rekorVerify_VerifyLogEntry ext |}.

(** The same world with a log that answers every query with one record of
    three items, the second of which does not verify. *)
Definition extTampered : @Collaborators nat Z bool string nat nat nat nat :=
  {| tlog_ValidateEntry := tlog_ValidateEntry ext;
     tlog_VerifySET := tlog_VerifySET ext;
     rekorClient_GetRekorClient := rekorClient_GetRekorClient ext;
     Pubkey_GetPublicKey := Pubkey_GetPublicKey ext;
     pem_Decode := pem_Decode ext;
     x509_ParsePKIXPublicKey := x509_ParsePKIXPublicKey ext;
     signature_LoadVerifier := signature_LoadVerifier ext;
     Entries_SearchLogQuery (c : string) (idxs : list Z) :=
       Ok [[("uuid-1"%string, 1%nat); ("uuid-2"%string, 2%nat);
            ("uuid-3"%string, 1%nat)]];
     rekorVerify_VerifyLogEntry := rekorVerify_VerifyLogEntry ext |}.

(** A trusted root that knows no log. *)
Definition emptyRoot : @TrustedRoot nat := {| TlogVerifiers := ∅ |}.

(** A log verifier with its key material replaced. *)
Definition rekey (tv : @TlogVerifier nat) : @TlogVerifier nat :=
  {| BaseURL := BaseURL tv; keyMaterial := 99%nat |}.

End Example.

(** ** Reasoning about the monad and the loop *)

Section Properties.

Context {x509_Certificate time_Time EntryBody Client SigVerifier PublicKey
         LogEntryAnon KeyMaterial : Type}.

#[local] Abbreviation Entry := (@Entry x509_Certificate time_Time EntryBody).
#[local] Abbreviation Event := (@Event x509_Certificate time_Time EntryBody Client SigVerifier
                          PublicKey LogEntryAnon).
#[local] Abbreviation M := (@M x509_Certificate time_Time EntryBody Client SigVerifier
                  PublicKey LogEntryAnon).
#[local] Abbreviation Verifier := (@ArtifactTransparencyLogVerifier KeyMaterial).
#[local] Abbreviation Entity := (@SignedEntity x509_Certificate time_Time EntryBody).
#[local] Abbreviation VContent := (@VerificationContentT x509_Certificate time_Time).

Variable ext : @Collaborators x509_Certificate time_Time EntryBody Client SigVerifier
                              PublicKey LogEntryAnon KeyMaterial.

(** *** Vocabulary of the statements *)

(** The calls of the iterations over a list of entries. *)
Definition callsOfEntries (p : Verifier) (sig : list Byte.byte) (vc : VContent)
    (entries : list Entry) : list Event :=
  concat (map (fun e => calls (verifyEntry ext p sig vc e)) entries).

(** The three calls [Verify] makes on the entity before the loop. *)
Definition fetchCalls : list Event :=
  [CallTlogEntries; CallSignatureContent; CallVerificationContent].

(** The run of [Verify] on [entity] gets into the loop with signature content
    [sc] and verification content [vc], and every entry of [pre] passes: the
    iteration for the entry [e] that follows [pre] is executed. *)
Definition reaches (p : Verifier) (entity : Entity) (sc : SignatureContentT)
    (vc : VContent) (pre : list Entry) (e : Entry) (post : list Entry)
    : Prop :=
  TlogEntries entity = Ok (pre ++ e :: post) /\
  threshold p <= Z.of_nat (length (pre ++ e :: post)) /\
  SignatureContent entity = Ok sc /\
  VerificationContent entity = Ok vc /\
  Forall (fun x => succeeds (verifyEntry ext p (GetSignature sc) vc x)) pre.

(** The checks of one iteration, in the order of the source. *)
Definition checks (p : Verifier) (sig : list Byte.byte) (vc : VContent)
    (e : Entry) : list (M unit) :=
  [structuralCheck ext e; strategyCheck ext p e; signatureCheck sig e;
   certificateCheck vc e; timeCheck vc e].

(** Running a list of checks, stopping at the first error. *)
Fixpoint runAll (ms : list (M unit)) : (M unit) :=
  match ms with
  | [] => mret tt
  | m :: rest => m;; runAll rest
  end.

(** In online mode, the log of entry [e] resolves and answers the query for
    the index of [e] with exactly one record, which holds no entry. *)
Definition answersEmptyRecord (p : Verifier) (e : Entry) : Prop :=
  exists tv client verifier,
    tlogVerifiers p !! hex_EncodeToString (LogKeyID e) = Some tv /\
    outcome (getRekorClient ext (BaseURL tv)) = Ok (client, verifier) /\
    Entries_SearchLogQuery ext client [LogIndex e] = Ok [[]].





(** The entity with its entries replaced by [entries]. *)
Definition withEntries (entity : Entity) (entries : list Entry) : Entity :=
  {| TlogEntries := Ok entries;
     SignatureContent := SignatureContent entity;
     VerificationContent := VerificationContent entity |}.

(** *** Vocabulary of the further statements *)

(** The five steps of [getRekorClient] all succeed on [baseURL], giving
    [client] and [verifier]. *)
Definition resolves (baseURL : string) (client : Client)
    (verifier : SigVerifier) : Prop :=
  exists keyResp block pub,
    rekorClient_GetRekorClient ext baseURL = Ok client /\
    Pubkey_GetPublicKey ext client = Ok keyResp /\
    pem_Decode ext keyResp = Some block /\
    x509_ParsePKIXPublicKey ext block = Ok pub /\
    signature_LoadVerifier ext pub = Ok verifier.

(** The calls of a successful [getRekorClient]. *)
Definition resolutionCalls (baseURL : string) (client : Client)
    (keyResp : string) (block : list Byte.byte) (pub : PublicKey)
    : list Event :=
  [CallGetRekorClient baseURL; CallGetPublicKey client; CallPemDecode keyResp;
   CallParsePKIXPublicKey block; CallLoadVerifier pub].

(** The three cross-checks hold of the entry. *)
Definition matchesEntity (sig : list Byte.byte) (vc : VContent) (e : Entry)
    : Prop :=
  Signature e = sig /\
  CompareKey vc (Certificate e) = true /\
  ValidAtTime vc (IntegratedTime e) = true.

(** What an entry has to satisfy in offline mode. *)
Definition passesOffline (p : Verifier) (sig : list Byte.byte) (vc : VContent)
    (e : Entry) : Prop :=
  tlog_ValidateEntry ext e = None /\
  tlog_VerifySET ext e (TlogVerifiers (trustedRoot p)) = None /\
  matchesEntity sig vc e.

(** What an entry has to satisfy in online mode. *)
Definition passesOnline (p : Verifier) (sig : list Byte.byte) (vc : VContent)
    (e : Entry) : Prop :=
  tlog_ValidateEntry ext e = None /\
  (exists tv client verifier (logEntry : list (string * LogEntryAnon)),
     tlogVerifiers p !! hex_EncodeToString (LogKeyID e) = Some tv /\
     resolves (BaseURL tv) client verifier /\
     Entries_SearchLogQuery ext client [LogIndex e] = Ok [logEntry] /\
     Forall (fun kv => rekorVerify_VerifyLogEntry ext (snd kv) verifier = None)
            logEntry) /\
  matchesEntity sig vc e.


(** The calls that verify the items of one record, in order. *)
Definition recordCalls (logEntry : list (string * LogEntryAnon))
    (verifier : SigVerifier) : list Event :=
  map (fun kv => CallVerifyLogEntry (snd kv) verifier) logEntry.

Definition isVerifySET (ev : Event) : bool :=
  match ev with CallVerifySET _ => true | _ => false end.

Definition isGetRekorClient (ev : Event) : bool :=
  match ev with CallGetRekorClient _ => true | _ => false end.

Definition isSearchLogQuery (ev : Event) : bool :=
  match ev with CallSearchLogQuery _ _ => true | _ => false end.

(** How many of the calls satisfy [f]. *)
Definition countCalls (f : Event -> bool) (t : list Event) : nat :=
  length (List.filter f t).

(** The verifier with one field replaced. *)
Definition withTrustedRoot (p : Verifier) (r : TrustedRoot) : Verifier :=
  {| trustedRoot := r;
     threshold := threshold p;
     online := online p;
     tlogVerifiers := tlogVerifiers p |}.

Definition withTlogVerifiers (p : Verifier)
    (vs : gmap string (@TlogVerifier KeyMaterial)) : Verifier :=
  {| trustedRoot := trustedRoot p;
     threshold := threshold p;
     online := online p;
     tlogVerifiers := vs |}.

Definition withThreshold (p : Verifier) (t : Z) : Verifier :=
  {| trustedRoot := trustedRoot p;
     threshold := t;
     online := online p;
     tlogVerifiers := tlogVerifiers p |}.

(** The value of a lower-case hexadecimal digit, the inverse of [hexdigit]. *)
Definition fromHexChar (c : ascii) : N :=
  match String.index 0 (String c EmptyString) hextable with
  | Some i => N.of_nat i
  | None => 0%N
  end.

(** *** The monad *)

Lemma bind_Ok {A B} (m : M A) (f : A -> M B) (a : A) :
  outcome m = Ok a ->
  m ≫= f = (outcome (f a), calls m ++ calls (f a)).
Proof.
  destruct m as [r t]; simpl; intros ->.
  unfold mbind, M_bind. by destruct (f a).
Qed.

Lemma bind_Err {A B} (m : M A) (f : A -> M B) (e : error) :
  outcome m = Err e ->
  m ≫= f = (Err e, calls m).
Proof. destruct m as [r t]; simpl; by intros ->. Qed.

Lemma outcome_cases (m : M unit) :
  succeeds m \/ exists e, failsWith m e.
Proof.
  destruct m as [[[]|e] t]; [by left | right; by exists e].
Qed.

Lemma bytes_Equal_eq (a b : list Byte.byte) :
  bytes_Equal a b = true <-> a = b.
Proof.
  revert b; induction a as [|x a IH]; intros [|y b]; simpl; try easy.
  rewrite andb_true_iff, IH. split.
  - intros [H ->]. by rewrite (Byte.byte_dec_bl _ _ H).
  - intros [= -> ->]. split; [by apply Byte.byte_dec_lb | done].
Qed.

(** The loop succeeds exactly when every iteration does. *)
Lemma verifyEntries_succeeds p sig (vc : VContent) (entries : list Entry) :
  succeeds (verifyEntries ext p sig vc entries) <->
  Forall (fun e => succeeds (verifyEntry ext p sig vc e)) entries.
Proof.
  induction entries as [|e rest IH]; simpl.
  - split; [constructor | reflexivity].
  - rewrite Forall_cons, <- IH.
    destruct (outcome_cases (verifyEntry ext p sig vc e)) as [Hs | [x Hx]].
    + rewrite (bind_Ok _ _ tt Hs). unfold succeeds at 1; simpl. tauto.
    + rewrite (bind_Err _ _ x Hx). unfold succeeds, failsWith in *; simpl.
      rewrite Hx. split; [discriminate | intros [? _]; discriminate].
Qed.

(** The loop stops at the first failing iteration, with its error. *)
Lemma verifyEntries_first_failure p sig (vc : VContent)
    (pre post : list Entry) (e : Entry) (err : error) :
  Forall (fun e => succeeds (verifyEntry ext p sig vc e)) pre ->
  failsWith (verifyEntry ext p sig vc e) err ->
  verifyEntries ext p sig vc (pre ++ e :: post) =
  (Err err, callsOfEntries p sig vc pre ++ calls (verifyEntry ext p sig vc e)).
Proof.
  intros Hpre He. induction Hpre as [|x pre Hx Hpre IH]; simpl.
  - by rewrite (bind_Err _ _ err He).
  - rewrite (bind_Ok _ _ tt Hx), IH. simpl.
    unfold callsOfEntries; simpl. by rewrite <- app_assoc.
Qed.

Lemma verifyEntries_all_pass p sig (vc : VContent) (entries : list Entry) :
  Forall (fun e => succeeds (verifyEntry ext p sig vc e)) entries ->
  verifyEntries ext p sig vc entries =
  (Ok tt, callsOfEntries p sig vc entries).
Proof.
  intros H. induction H as [|x l Hx Hl IH]; simpl; [done|].
  by rewrite (bind_Ok _ _ tt Hx), IH.
Qed.

(** A failing loop has a first failing iteration. *)
Lemma verifyEntries_failure_inv p sig (vc : VContent)
    (entries : list Entry) (err : error) :
  failsWith (verifyEntries ext p sig vc entries) err ->
  exists pre e post,
    entries = pre ++ e :: post /\
    Forall (fun e => succeeds (verifyEntry ext p sig vc e)) pre /\
    failsWith (verifyEntry ext p sig vc e) err.
Proof.
  induction entries as [|x rest IH]; simpl.
  - discriminate.
  - destruct (outcome_cases (verifyEntry ext p sig vc x)) as [Hs | [y Hy]].
    + rewrite (bind_Ok _ _ tt Hs). unfold failsWith at 1; simpl.
      intros H. destruct (IH H) as (pre & e & post & -> & Hpre & He).
      exists (x :: pre), e, post. repeat split; [by constructor | done].
    + rewrite (bind_Err _ _ y Hy). unfold failsWith at 1; simpl.
      intros [= <-]. exists [], x, rest. repeat split; [constructor | done].
Qed.


(** *** Lists of checks *)

Lemma bind_unit_ret (m : M unit) : (m;; mret tt) = m.
Proof.
  destruct m as [[[]|e] t]; [|done].
  unfold mbind, M_bind, mret, M_ret. by rewrite app_nil_r.
Qed.

Lemma verifyEntry_runAll p sig (vc : VContent) (e : Entry) :
  verifyEntry ext p sig vc e = runAll (checks p sig vc e).
Proof.
  unfold verifyEntry, crossChecks, checks, runAll.
  by rewrite bind_unit_ret.
Qed.

Lemma runAll_succeeds (ms : list (M unit)) :
  succeeds (runAll ms) <-> Forall succeeds ms.
Proof.
  induction ms as [|m rest IH]; simpl.
  - split; [constructor | reflexivity].
  - rewrite Forall_cons, <- IH.
    destruct (outcome_cases m) as [Hs | [x Hx]].
    + rewrite (bind_Ok _ _ tt Hs). unfold succeeds at 1; simpl. tauto.
    + rewrite (bind_Err _ _ x Hx). unfold succeeds, failsWith in *; simpl.
      rewrite Hx. split; [discriminate | intros [? _]; discriminate].
Qed.

Lemma runAll_failure_inv (ms : list (M unit)) (err : error) :
  failsWith (runAll ms) err ->
  exists before m after,
    ms = before ++ m :: after /\ Forall succeeds before /\ failsWith m err.
Proof.
  induction ms as [|x rest IH]; simpl.
  - discriminate.
  - destruct (outcome_cases x) as [Hs | [y Hy]].
    + rewrite (bind_Ok _ _ tt Hs). unfold failsWith at 1; simpl.
      intros H. destruct (IH H) as (before & m & after & -> & Hb & Hm).
      exists (x :: before), m, after. repeat split; [by constructor | done].
    + rewrite (bind_Err _ _ y Hy). unfold failsWith at 1; simpl.
      intros [= <-]. exists [], x, rest. repeat split; [constructor | done].
Qed.

(** *** [Verify], case by case *)

Lemma Verify_entries_error p (entity : Entity) (err : error) :
  TlogEntries entity = Err err ->
  Verify ext p entity = (Err err, [CallTlogEntries]).
Proof. intros H. unfold Verify. by rewrite H. Qed.

Lemma Verify_shortfall p (entity : Entity) (entries : list Entry) :
  TlogEntries entity = Ok entries ->
  Z.of_nat (length entries) < threshold p ->
  Verify ext p entity =
  (Err (InsufficientEvidence (Z.of_nat (length entries)) (threshold p)),
   [CallTlogEntries]).
Proof.
  intros H Hlt. unfold Verify. rewrite H.
  apply Z.ltb_lt in Hlt. unfold call, mbind, M_bind. by rewrite Hlt.
Qed.

Lemma Verify_signature_error p (entity : Entity) entries (err : error) :
  TlogEntries entity = Ok entries ->
  threshold p <= Z.of_nat (length entries) ->
  SignatureContent entity = Err err ->
  Verify ext p entity = (Err err, [CallTlogEntries; CallSignatureContent]).
Proof.
  intros H Hge Hs. unfold Verify. rewrite H, Hs.
  apply Z.ltb_ge in Hge. unfold call, mbind, M_bind. by rewrite Hge.
Qed.

Lemma Verify_verification_error p (entity : Entity) entries sc (err : error) :
  TlogEntries entity = Ok entries ->
  threshold p <= Z.of_nat (length entries) ->
  SignatureContent entity = Ok sc ->
  VerificationContent entity = Err err ->
  Verify ext p entity = (Err err, fetchCalls).
Proof.
  intros H Hge Hs Hv. unfold Verify. rewrite H, Hs, Hv.
  apply Z.ltb_ge in Hge. unfold call, mbind, M_bind. by rewrite Hge.
Qed.

Lemma Verify_loop p (entity : Entity) entries sc (vc : VContent) :
  TlogEntries entity = Ok entries ->
  threshold p <= Z.of_nat (length entries) ->
  SignatureContent entity = Ok sc ->
  VerificationContent entity = Ok vc ->
  Verify ext p entity =
  (outcome (verifyEntries ext p (GetSignature sc) vc entries),
   fetchCalls ++ calls (verifyEntries ext p (GetSignature sc) vc entries)).
Proof.
  intros H Hge Hs Hv. unfold Verify. rewrite H, Hs, Hv.
  apply Z.ltb_ge in Hge. unfold call, mbind, M_bind. rewrite Hge.
  by destruct (verifyEntries _ _ _ _ _).
Qed.

(** The run that reaches an entry on which the iteration fails. *)
Lemma Verify_reaches_failure p (entity : Entity) sc (vc : VContent)
    pre e post (err : error) :
  reaches p entity sc vc pre e post ->
  failsWith (verifyEntry ext p (GetSignature sc) vc e) err ->
  Verify ext p entity =
  (Err err,
   fetchCalls ++ callsOfEntries p (GetSignature sc) vc pre
     ++ calls (verifyEntry ext p (GetSignature sc) vc e)).
Proof.
  intros (H & Hge & Hs & Hv & Hpre) He.
  rewrite (Verify_loop _ _ _ _ _ H Hge Hs Hv).
  by rewrite (verifyEntries_first_failure _ _ _ _ _ _ _ Hpre He).
Qed.

(** *** Which calls the loop makes *)

Lemma calls_bind_Forall {A B} (P : Event -> Prop) (m : M A) (f : A -> M B) :
  Forall P (calls m) ->
  (forall a, Forall P (calls (f a))) ->
  Forall P (calls (m ≫= f)).
Proof.
  intros Hm Hf. destruct m as [[a|e] t]; simpl in *; [|done].
  unfold mbind, M_bind. specialize (Hf a). destruct (f a) as [r t']; simpl in *.
  by apply Forall_app.
Qed.

Lemma callE_calls (ev : Event) r : calls (callE ev r) = [ev].
Proof. by destruct r. Qed.

Ltac calls_step :=
  match goal with
  | |- Forall _ (calls (_ ≫= _)) => apply calls_bind_Forall; [|intros]
  | |- Forall _ (calls (callE _ _)) => rewrite callE_calls
  | |- Forall _ (calls (match ?x with _ => _ end)) => destruct x
  | |- Forall _ (calls (if ?b then _ else _)) => destruct b
  | |- Forall _ (calls (let '(_, _) := ?x in _)) => destruct x
  | |- Forall _ _ => by repeat constructor
  end.

Lemma getRekorClient_calls (baseURL : string) :
  Forall (fun ev => isResolution ev = true)
         (calls (getRekorClient ext baseURL)).
Proof. unfold getRekorClient. repeat calls_step. Qed.

Lemma isResolution_perEntry (ev : Event) :
  isResolution ev = true -> isPerEntryWork ev = true.
Proof. by destruct ev. Qed.

Lemma isResolution_not_verify (ev : Event) :
  isResolution ev = true -> isVerifyLogEntry ev = false.
Proof. by destruct ev. Qed.

Lemma verifyLogEntries_calls (logEntry : list (string * LogEntryAnon))
    (verifier : SigVerifier) :
  Forall (fun ev => isPerEntryWork ev = true)
         (calls (verifyLogEntries ext logEntry verifier)).
Proof.
  induction logEntry as [|[k v] rest IH]; simpl; [constructor|].
  apply calls_bind_Forall; [rewrite callE_calls; by repeat constructor|].
  intros _. exact IH.
Qed.

Lemma verifyEntry_calls p sig (vc : VContent) (e : Entry) :
  Forall (fun ev => isPerEntryWork ev = true)
         (calls (verifyEntry ext p sig vc e)).
Proof.
  unfold verifyEntry, structuralCheck, strategyCheck, offlineCheck,
    onlineCheck, crossChecks, signatureCheck, certificateCheck, timeCheck.
  repeat first [ eapply Forall_impl;
                   [apply getRekorClient_calls | apply isResolution_perEntry]
               | apply verifyLogEntries_calls
               | calls_step ].
Qed.

Lemma verifyEntries_calls p sig (vc : VContent) (entries : list Entry) :
  Forall (fun ev => isPerEntryWork ev = true)
         (calls (verifyEntries ext p sig vc entries)).
Proof.
  induction entries as [|e rest IH]; simpl; [constructor|].
  apply calls_bind_Forall; [apply verifyEntry_calls | by intros].
Qed.

(** *** One iteration, check by check *)

Lemma crossChecks_eval sig (vc : VContent) (e : Entry) :
  (crossChecks sig vc e : M unit) =
  if negb (bytes_Equal (Signature e) sig)
  then (Err SignatureMismatch, [])
  else if negb (CompareKey vc (Certificate e))
  then (Err CertificateMismatch, [CallCompareKey (Certificate e)])
  else if negb (ValidAtTime vc (IntegratedTime e))
  then (Err TimeOutOfRange,
        [CallCompareKey (Certificate e); CallValidAtTime (IntegratedTime e)])
  else (Ok tt,
        [CallCompareKey (Certificate e); CallValidAtTime (IntegratedTime e)]).
Proof.
  unfold crossChecks, signatureCheck, certificateCheck, timeCheck.
  destruct (bytes_Equal _ _); simpl; [|done].
  destruct (CompareKey _ _); simpl; [|done].
  by destruct (ValidAtTime _ _).
Qed.

Lemma verifyEntry_structural_failure p sig (vc : VContent) (e : Entry) err :
  failsWith (structuralCheck ext e) err ->
  verifyEntry ext p sig vc e = (Err err, [CallValidateEntry e]).
Proof.
  intros H. unfold verifyEntry. rewrite (bind_Err _ _ err H).
  unfold structuralCheck. by rewrite callE_calls.
Qed.

Lemma verifyEntry_strategy_failure p sig (vc : VContent) (e : Entry) err :
  succeeds (structuralCheck ext e) ->
  failsWith (strategyCheck ext p e) err ->
  verifyEntry ext p sig vc e =
  (Err err, CallValidateEntry e :: calls (strategyCheck ext p e)).
Proof.
  intros Hs H. unfold verifyEntry.
  rewrite (bind_Ok _ _ tt Hs), (bind_Err _ _ err H).
  unfold structuralCheck. by rewrite callE_calls.
Qed.

Lemma verifyEntry_after_strategy p sig (vc : VContent) (e : Entry) :
  succeeds (structuralCheck ext e) ->
  succeeds (strategyCheck ext p e) ->
  verifyEntry ext p sig vc e =
  (outcome (crossChecks sig vc e : M unit),
   CallValidateEntry e :: calls (strategyCheck ext p e)
     ++ calls (crossChecks sig vc e : M unit)).
Proof.
  intros Hs Ht. unfold verifyEntry.
  rewrite (bind_Ok _ _ tt Hs), (bind_Ok _ _ tt Ht).
  unfold structuralCheck. by rewrite callE_calls.
Qed.

(** *** The online strategy, step by step *)

Lemma onlineCheck_unknown_key (p : Verifier) (e : Entry) :
  tlogVerifiers p !! hex_EncodeToString (LogKeyID e) = None ->
  onlineCheck ext p e =
  (Err (UnknownLogIdentifier (hex_EncodeToString (LogKeyID e))), []).
Proof. intros H. unfold onlineCheck. by rewrite H. Qed.

Lemma onlineCheck_queried (p : Verifier) (e : Entry) tv client verifier
    (payload : list (list (string * LogEntryAnon))) :
  tlogVerifiers p !! hex_EncodeToString (LogKeyID e) = Some tv ->
  outcome (getRekorClient ext (BaseURL tv)) = Ok (client, verifier) ->
  Entries_SearchLogQuery ext client [LogIndex e] = Ok payload ->
  onlineCheck ext p e =
  (outcome (match payload with
            | [] => fail (LogEntryNotFound (LogIndex e))
            | [logEntry] => verifyLogEntries ext logEntry verifier
            | _ :: _ :: _ => fail AmbiguousLogEntry
            end),
   calls (getRekorClient ext (BaseURL tv))
     ++ CallSearchLogQuery client [LogIndex e]
     :: calls (match payload with
               | [] => fail (LogEntryNotFound (LogIndex e))
               | [logEntry] => verifyLogEntries ext logEntry verifier
               | _ :: _ :: _ => fail AmbiguousLogEntry
               end)).
Proof.
  intros Hl Hc Hq. unfold onlineCheck. rewrite Hl.
  rewrite (bind_Ok _ _ _ Hc). simpl. rewrite Hq.
  unfold call, mbind, M_bind.
  by destruct payload as [|r [|r' rs]]; simpl;
    [| destruct (verifyLogEntries ext r verifier) |].
Qed.

Lemma crossChecks_calls_not_verify sig (vc : VContent) (e : Entry) :
  Forall (fun ev : Event => isVerifyLogEntry ev = false)
         (calls (crossChecks sig vc e : M unit)).
Proof.
  rewrite crossChecks_eval.
  destruct (bytes_Equal _ _), (CompareKey _ _), (ValidAtTime _ _); simpl;
    by repeat constructor.
Qed.

Lemma strategyCheck_empty_record (p : Verifier) (e : Entry) :
  online p = true ->
  answersEmptyRecord p e ->
  succeeds (strategyCheck ext p e) /\
  Forall (fun ev => isVerifyLogEntry ev = false)
         (calls (strategyCheck ext p e)).
Proof.
  intros Hon (tv & client & verifier & Hl & Hc & Hq).
  unfold strategyCheck. rewrite Hon. simpl.
  rewrite (onlineCheck_queried p e tv client verifier _ Hl Hc Hq). simpl.
  split; [done|]. apply Forall_app. split.
  - eapply Forall_impl;
      [apply getRekorClient_calls | apply isResolution_not_verify].
  - by repeat constructor.
Qed.

Lemma verifyEntry_empty_record (p : Verifier) sig (vc : VContent) (e : Entry) :
  online p = true ->
  succeeds (structuralCheck ext e) ->
  answersEmptyRecord p e ->
  outcome (verifyEntry ext p sig vc e) = outcome (crossChecks sig vc e : M unit) /\
  Forall (fun ev => isVerifyLogEntry ev = false)
         (calls (verifyEntry ext p sig vc e)).
Proof.
  intros Hon Hs Ha.
  destruct (strategyCheck_empty_record p e Hon Ha) as [Ht Hcalls].
  rewrite (verifyEntry_after_strategy p sig vc e Hs Ht). simpl.
  split; [done|]. constructor; [done|].
  apply Forall_app. split; [done | apply crossChecks_calls_not_verify].
Qed.

(** *** Success of [Verify] *)

Lemma verifyEntry_succeeds_checks p sig (vc : VContent) (e : Entry) :
  succeeds (verifyEntry ext p sig vc e) <->
  Forall succeeds (checks p sig vc e).
Proof. rewrite verifyEntry_runAll. apply runAll_succeeds. Qed.

Lemma Verify_succeeds_iff p (entity : Entity) :
  succeeds (Verify ext p entity) <->
  exists entries sc vc,
    TlogEntries entity = Ok entries /\
    threshold p <= Z.of_nat (length entries) /\
    SignatureContent entity = Ok sc /\
    VerificationContent entity = Ok vc /\
    Forall (fun e => succeeds (verifyEntry ext p (GetSignature sc) vc e))
           entries.
Proof.
  split.
  - intros Hok.
    destruct (TlogEntries entity) as [entries|err] eqn:H;
      [| by rewrite (Verify_entries_error _ _ _ H) in Hok].
    destruct (Z.lt_ge_cases (Z.of_nat (length entries)) (threshold p))
      as [Hlt|Hge]; [by rewrite (Verify_shortfall _ _ _ H Hlt) in Hok|].
    destruct (SignatureContent entity) as [sc|err] eqn:Hs;
      [| by rewrite (Verify_signature_error _ _ _ _ H Hge Hs) in Hok].
    destruct (VerificationContent entity) as [vc|err] eqn:Hv;
      [| by rewrite (Verify_verification_error _ _ _ _ _ H Hge Hs Hv) in Hok].
    exists entries, sc, vc. repeat split; try done.
    rewrite (Verify_loop _ _ _ _ _ H Hge Hs Hv) in Hok.
    by apply verifyEntries_succeeds.
  - intros (entries & sc & vc & H & Hge & Hs & Hv & Hall).
    rewrite (Verify_loop _ _ _ _ _ H Hge Hs Hv).
    by apply verifyEntries_succeeds.
Qed.

(** *** Where errors come from *)













(** ** The threshold gate *)

(** C1: when the entries are extracted and there are fewer of them than the
    threshold, [Verify] fails with [InsufficientEvidence]; the only call it
    has made is the extraction of the entries, so no structural validation,
    SET verification, log resolution or log query took place. *)
Theorem Verify_below_threshold p (entity : Entity) (entries : list Entry) :
  TlogEntries entity = Ok entries ->
  Z.of_nat (length entries) < threshold p ->
  failsWith (Verify ext p entity)
    (InsufficientEvidence (Z.of_nat (length entries)) (threshold p)) /\
  calls (Verify ext p entity) = [CallTlogEntries] /\
  Forall (fun ev => isPerEntryWork ev = false) (calls (Verify ext p entity)).
Proof.
  intros H Hlt. rewrite (Verify_shortfall _ _ _ H Hlt).
  repeat split. by repeat constructor.
Qed.

(** C8, amended: [Verify] fetches the entries first and once, runs the
    threshold check right after, and fetches the signature content and then
    the verification content, once each, only when the threshold check has
    passed.  Below the threshold the result is [InsufficientEvidence] and
    neither content is fetched, whatever their parsing would give. *)
Theorem Verify_fetch_order p (entity : Entity) (entries : list Entry) :
  TlogEntries entity = Ok entries ->
  (Z.of_nat (length entries) < threshold p ->
   Verify ext p entity =
   (Err (InsufficientEvidence (Z.of_nat (length entries)) (threshold p)),
    [CallTlogEntries])) /\
  (threshold p <= Z.of_nat (length entries) ->
   (forall err, SignatureContent entity = Err err ->
      Verify ext p entity = (Err err, [CallTlogEntries; CallSignatureContent])) /\
   (forall sc err, SignatureContent entity = Ok sc ->
      VerificationContent entity = Err err ->
      Verify ext p entity =
      (Err err, [CallTlogEntries; CallSignatureContent; CallVerificationContent])) /\
   (forall sc vc, SignatureContent entity = Ok sc ->
      VerificationContent entity = Ok vc ->
      exists inLoop,
        calls (Verify ext p entity) =
        [CallTlogEntries; CallSignatureContent; CallVerificationContent]
          ++ inLoop /\
        Forall (fun ev => isPerEntryWork ev = true) inLoop)).
Proof.
  intros H. split; [by apply Verify_shortfall|].
  intros Hge. repeat split.
  - intros err Hs. by apply (Verify_signature_error _ _ entries).
  - intros sc err Hs Hv. by apply (Verify_verification_error _ _ entries sc).
  - intros sc vc Hs Hv. rewrite (Verify_loop _ _ _ _ _ H Hge Hs Hv).
    eexists; split; [reflexivity | apply verifyEntries_calls].
Qed.

(** C10: the constructor stores the threshold it is given, whatever its sign;
    a verifier whose threshold is zero or negative, in either mode, accepts an
    entity with no entry whose two contents parse, and the only calls made are
    the three fetches on the entity. *)
Theorem Verify_no_entries_nonpositive_threshold :
  (forall root t mode vs,
     threshold (NewArtifactTransparencyLogVerifier (KeyMaterial:=KeyMaterial)
                  root t mode vs) = t) /\
  (forall (p : Verifier) (entity : Entity) sc (vc : VContent),
     threshold p <= 0 ->
     TlogEntries entity = Ok [] ->
     SignatureContent entity = Ok sc ->
     VerificationContent entity = Ok vc ->
     Verify ext p entity = (Ok tt, fetchCalls) /\
     Forall (fun ev => isCryptographic ev = false /\ isNetwork ev = false)
            (calls (Verify ext p entity))).
Proof.
  split; [done|].
  intros p entity sc vc Ht H Hs Hv.
  assert (Hge : threshold p <= Z.of_nat (length (@nil Entry))) by (simpl; lia).
  rewrite (Verify_loop _ _ _ _ _ H Hge Hs Hv). simpl.
  split; [done | by repeat constructor].
Qed.

(** ** The checks of one entry *)

(** C6: on an entry that the run reaches and whose structural and
    strategy-specific checks succeed, the cross-checks run in the order
    signature, certificate, time, and the first that fails gives the error of
    [Verify]: [SignatureMismatch] when the entry's signature differs from the
    entity's (the certificate and time predicates are then not called),
    [CertificateMismatch] when the key comparison rejects the certificate (the
    time predicate is then not called), [TimeOutOfRange] when the validity
    predicate rejects the integrated time; when none fails the entry passes. *)
Theorem Verify_cross_checks_order p (entity : Entity) sc (vc : VContent)
    pre e post :
  reaches p entity sc vc pre e post ->
  succeeds (structuralCheck ext e) ->
  succeeds (strategyCheck ext p e) ->
  let before :=
    fetchCalls ++ callsOfEntries p (GetSignature sc) vc pre
      ++ CallValidateEntry e :: calls (strategyCheck ext p e) in
  (Signature e <> GetSignature sc ->
   Verify ext p entity = (Err SignatureMismatch, before)) /\
  (Signature e = GetSignature sc ->
   CompareKey vc (Certificate e) = false ->
   Verify ext p entity =
   (Err CertificateMismatch, before ++ [CallCompareKey (Certificate e)])) /\
  (Signature e = GetSignature sc ->
   CompareKey vc (Certificate e) = true ->
   ValidAtTime vc (IntegratedTime e) = false ->
   Verify ext p entity =
   (Err TimeOutOfRange,
    before ++ [CallCompareKey (Certificate e);
               CallValidAtTime (IntegratedTime e)])) /\
  (Signature e = GetSignature sc ->
   CompareKey vc (Certificate e) = true ->
   ValidAtTime vc (IntegratedTime e) = true ->
   succeeds (verifyEntry ext p (GetSignature sc) vc e)).
Proof.
  intros Hr Hs Ht before.
  pose proof (verifyEntry_after_strategy p (GetSignature sc) vc e Hs Ht) as Hv.
  rewrite crossChecks_eval in Hv.
  assert (Hne : Signature e <> GetSignature sc ->
                bytes_Equal (Signature e) (GetSignature sc) = false).
  { intros Hn. destruct (bytes_Equal _ _) eqn:E; [|done].
    by apply bytes_Equal_eq in E. }
  assert (Heq : Signature e = GetSignature sc ->
                bytes_Equal (Signature e) (GetSignature sc) = true).
  { intros E. by apply bytes_Equal_eq. }
  repeat split.
  - intros Hn. rewrite (Hne Hn) in Hv. simpl in Hv.
    rewrite (Verify_reaches_failure _ _ _ _ _ _ _ SignatureMismatch Hr);
      [| unfold failsWith; by rewrite Hv].
    rewrite Hv. simpl. by rewrite app_nil_r.
  - intros E Hc. rewrite (Heq E), Hc in Hv. simpl in Hv.
    rewrite (Verify_reaches_failure _ _ _ _ _ _ _ CertificateMismatch Hr);
      [| unfold failsWith; by rewrite Hv].
    rewrite Hv. simpl. subst before. by rewrite <- !app_assoc.
  - intros E Hc Hti. rewrite (Heq E), Hc, Hti in Hv. simpl in Hv.
    rewrite (Verify_reaches_failure _ _ _ _ _ _ _ TimeOutOfRange Hr);
      [| unfold failsWith; by rewrite Hv].
    rewrite Hv. simpl. subst before. by rewrite <- !app_assoc.
  - intros E Hc Hti. rewrite (Heq E), Hc, Hti in Hv. simpl in Hv.
    unfold succeeds. by rewrite Hv.
Qed.

(** ** The online strategy *)

(** C5: in online mode, when the hex encoding of the entry's log key
    identifier is not a key of the configured mapping, the online strategy
    fails with [UnknownLogIdentifier] without making any call; on a run that
    reaches the entry and finds it structurally valid, [Verify] returns that
    error and its only call for that entry is the structural validation: no
    client resolution and no log query. *)
Theorem Verify_unknown_log_identifier p (entity : Entity) sc (vc : VContent)
    pre e post :
  online p = true ->
  tlogVerifiers p !! hex_EncodeToString (LogKeyID e) = None ->
  strategyCheck ext p e =
  (Err (UnknownLogIdentifier (hex_EncodeToString (LogKeyID e))), []) /\
  (reaches p entity sc vc pre e post ->
   succeeds (structuralCheck ext e) ->
   Verify ext p entity =
   (Err (UnknownLogIdentifier (hex_EncodeToString (LogKeyID e))),
    fetchCalls ++ callsOfEntries p (GetSignature sc) vc pre
      ++ [CallValidateEntry e]) /\
   calls (verifyEntry ext p (GetSignature sc) vc e) = [CallValidateEntry e] /\
   Forall (fun ev => isNetwork ev = false)
          (calls (verifyEntry ext p (GetSignature sc) vc e))).
Proof.
  intros Hon Hl.
  assert (Hst : strategyCheck ext p e =
    (Err (UnknownLogIdentifier (hex_EncodeToString (LogKeyID e))), [])).
  { unfold strategyCheck. rewrite Hon. simpl. by apply onlineCheck_unknown_key. }
  split; [done|]. intros Hr Hs.
  assert (Hf : failsWith (strategyCheck ext p e)
                 (UnknownLogIdentifier (hex_EncodeToString (LogKeyID e)))).
  { unfold failsWith. by rewrite Hst. }
  pose proof (verifyEntry_strategy_failure p (GetSignature sc) vc e _ Hs Hf)
    as Hv.
  rewrite Hst in Hv. simpl in Hv.
  rewrite (Verify_reaches_failure _ _ _ _ _ _ _
             (UnknownLogIdentifier (hex_EncodeToString (LogKeyID e))) Hr);
    [| unfold failsWith; by rewrite Hv].
  rewrite Hv. simpl. repeat split. by repeat constructor.
Qed.

(** C4: in online mode, on a run that reaches a structurally valid entry
    whose log resolves and whose query succeeds, [Verify] fails with
    [LogEntryNotFound] when the answer holds no record and with
    [AmbiguousLogEntry] when it holds two or more; in both cases the query is
    the last call of the run, so no record is verified and no cross-check is
    made, and the calls of the resolution before it verify no record either. *)
Theorem Verify_query_result_count p (entity : Entity) sc (vc : VContent)
    pre e post tv client verifier
    (payload : list (list (string * LogEntryAnon))) :
  online p = true ->
  reaches p entity sc vc pre e post ->
  succeeds (structuralCheck ext e) ->
  tlogVerifiers p !! hex_EncodeToString (LogKeyID e) = Some tv ->
  outcome (getRekorClient ext (BaseURL tv)) = Ok (client, verifier) ->
  Entries_SearchLogQuery ext client [LogIndex e] = Ok payload ->
  let upToQuery :=
    fetchCalls ++ callsOfEntries p (GetSignature sc) vc pre
      ++ CallValidateEntry e :: calls (getRekorClient ext (BaseURL tv))
      ++ [CallSearchLogQuery client [LogIndex e]] in
  (length payload = 0%nat ->
   Verify ext p entity = (Err (LogEntryNotFound (LogIndex e)), upToQuery)) /\
  ((2 <= length payload)%nat ->
   Verify ext p entity = (Err AmbiguousLogEntry, upToQuery)) /\
  Forall (fun ev => isVerifyLogEntry ev = false)
         (calls (getRekorClient ext (BaseURL tv))).
Proof.
  intros Hon Hr Hs Hl Hc Hq upToQuery.
  pose proof (onlineCheck_queried p e tv client verifier payload Hl Hc Hq)
    as Ho.
  assert (Hst : strategyCheck ext p e = onlineCheck ext p e).
  { unfold strategyCheck. by rewrite Hon. }
  repeat split.
  - intros Hlen. destruct payload as [|r rs]; [|done]. simpl in Ho.
    assert (Hf : failsWith (strategyCheck ext p e)
                   (LogEntryNotFound (LogIndex e))).
    { unfold failsWith. by rewrite Hst, Ho. }
    pose proof (verifyEntry_strategy_failure p (GetSignature sc) vc e _ Hs Hf)
      as Hv.
    rewrite Hst, Ho in Hv. simpl in Hv.
    rewrite (Verify_reaches_failure _ _ _ _ _ _ _
               (LogEntryNotFound (LogIndex e)) Hr);
      [| unfold failsWith; by rewrite Hv].
    by rewrite Hv.
  - intros Hlen. destruct payload as [|r [|r' rs]]; simpl in Hlen; [lia | lia |].
    simpl in Ho.
    assert (Hf : failsWith (strategyCheck ext p e) AmbiguousLogEntry).
    { unfold failsWith. by rewrite Hst, Ho. }
    pose proof (verifyEntry_strategy_failure p (GetSignature sc) vc e _ Hs Hf)
      as Hv.
    rewrite Hst, Ho in Hv. simpl in Hv.
    rewrite (Verify_reaches_failure _ _ _ _ _ _ _ AmbiguousLogEntry Hr);
      [| unfold failsWith; by rewrite Hv].
    by rewrite Hv.
  - eapply Forall_impl;
      [apply getRekorClient_calls | apply isResolution_not_verify].
Qed.

(** C3: in online mode, an entry whose query is answered by exactly one
    record that holds no entry passes the strategy-specific check without any
    call to [rekorVerify.VerifyLogEntry], and the outcome of its iteration is
    the outcome of the cross-checks alone; an entity all of whose entries are
    so answered and pass the cross-checks is accepted by [Verify] in a run
    that never calls [rekorVerify.VerifyLogEntry]. *)
Theorem Verify_empty_record_unverified p (entity : Entity) sc (vc : VContent)
    (entries : list Entry) :
  online p = true ->
  TlogEntries entity = Ok entries ->
  threshold p <= Z.of_nat (length entries) ->
  SignatureContent entity = Ok sc ->
  VerificationContent entity = Ok vc ->
  Forall (fun e => succeeds (structuralCheck ext e) /\ answersEmptyRecord p e)
         entries ->
  Forall (fun e =>
            succeeds (strategyCheck ext p e) /\
            Forall (fun ev => isVerifyLogEntry ev = false)
                   (calls (strategyCheck ext p e)) /\
            outcome (verifyEntry ext p (GetSignature sc) vc e) =
            outcome (crossChecks (GetSignature sc) vc e : M unit))
         entries /\
  (Forall (fun e => succeeds (crossChecks (GetSignature sc) vc e : M unit))
          entries ->
   succeeds (Verify ext p entity) /\
   Forall (fun ev => isVerifyLogEntry ev = false)
          (calls (Verify ext p entity))).
Proof.
  intros Hon H Hge Hs Hv Hall. split.
  - eapply Forall_impl; [exact Hall|]. intros e [Hst Ha]. simpl.
    destruct (strategyCheck_empty_record p e Hon Ha) as [? ?].
    destruct (verifyEntry_empty_record p (GetSignature sc) vc e Hon Hst Ha)
      as [? _].
    done.
  - intros Hcross. rewrite (Verify_loop _ _ _ _ _ H Hge Hs Hv).
    assert (Hpass : Forall (fun e =>
              succeeds (verifyEntry ext p (GetSignature sc) vc e)) entries).
    { apply Forall_forall. intros e He.
      rewrite Forall_forall in Hall, Hcross.
      destruct (Hall e He) as [Hst Ha].
      destruct (verifyEntry_empty_record p (GetSignature sc) vc e Hon Hst Ha)
        as [Ho _].
      unfold succeeds. rewrite Ho. by apply Hcross. }
    rewrite (verifyEntries_all_pass _ _ _ _ Hpass). simpl.
    split; [done|]. repeat (constructor; [done|]).
    unfold callsOfEntries. apply Forall_concat, Forall_map, Forall_forall.
    intros e He. rewrite Forall_forall in Hall.
    destruct (Hall e He) as [Hst Ha].
    by destruct (verifyEntry_empty_record p (GetSignature sc) vc e Hon Hst Ha).
Qed.

(** ** The whole run *)

(** C2, amended: for an entity that passes the threshold gate and whose
    signature content and verification content are extracted, [Verify]
    succeeds if and only if every check of every entry succeeds; otherwise it
    returns the error of the first failing check of the first failing entry,
    in the order of the entity; the result is success or one error. *)
Theorem Verify_all_or_first_failure p (entity : Entity) sc (vc : VContent)
    (entries : list Entry) :
  TlogEntries entity = Ok entries ->
  threshold p <= Z.of_nat (length entries) ->
  SignatureContent entity = Ok sc ->
  VerificationContent entity = Ok vc ->
  (succeeds (Verify ext p entity) <->
   Forall (fun e => Forall succeeds (checks p (GetSignature sc) vc e))
          entries) /\
  (~ succeeds (Verify ext p entity) ->
   exists pre e post before c after err,
     entries = pre ++ e :: post /\
     Forall (fun x => Forall succeeds (checks p (GetSignature sc) vc x)) pre /\
     checks p (GetSignature sc) vc e = before ++ c :: after /\
     Forall succeeds before /\
     failsWith c err /\
     failsWith (Verify ext p entity) err) /\
  (succeeds (Verify ext p entity) \/
   exists err, failsWith (Verify ext p entity) err).
Proof.
  intros H Hge Hs Hv.
  pose proof (Verify_loop _ _ _ _ _ H Hge Hs Hv) as HV.
  assert (Hiff : succeeds (Verify ext p entity) <->
    Forall (fun e => Forall succeeds (checks p (GetSignature sc) vc e))
           entries).
  { rewrite HV. unfold succeeds at 1; simpl.
    change (succeeds (verifyEntries ext p (GetSignature sc) vc entries) <->
      Forall (fun e => Forall succeeds (checks p (GetSignature sc) vc e))
             entries).
    rewrite verifyEntries_succeeds. apply Forall_iff.
    intros e. apply verifyEntry_succeeds_checks. }
  repeat split; try apply Hiff; [| apply outcome_cases].
  intros Hno.
  destruct (outcome_cases (Verify ext p entity)) as [Hok | [err Herr]];
    [done|].
  assert (Hloop : failsWith (verifyEntries ext p (GetSignature sc) vc entries)
                            err).
  { unfold failsWith in *. by rewrite HV in Herr. }
  destruct (verifyEntries_failure_inv _ _ _ _ _ Hloop)
    as (pre & e & post & -> & Hpre & He).
  rewrite verifyEntry_runAll in He.
  destruct (runAll_failure_inv _ _ He) as (before & c & after & Hc & Hb & Hf).
  exists pre, e, post, before, c, after, err. repeat split; try done.
  eapply Forall_impl; [exact Hpre|].
  intros x. apply verifyEntry_succeeds_checks.
Qed.

(** C9: for an entity whose entries are extracted and any permutation of
    these entries, with the same verifier, collaborators and contents,
    [Verify] succeeds on the permuted entity if and only if it succeeds on
    the original one. *)
Theorem Verify_permutation p (entity : Entity) (entries entries' : list Entry) :
  TlogEntries entity = Ok entries ->
  Permutation entries entries' ->
  (succeeds (Verify ext p entity) <->
   succeeds (Verify ext p (withEntries entity entries'))).
Proof.
  intros H Hperm. rewrite !Verify_succeeds_iff. simpl.
  split.
  - intros (l & sc & vc & Hl & Hge & Hs & Hv & Hall).
    rewrite H in Hl. injection Hl as <-.
    exists entries', sc, vc. repeat split; try done.
    + by rewrite <- (Permutation_length Hperm).
    + by apply (Permutation_Forall Hperm).
  - intros (l & sc & vc & Hl & Hge & Hs & Hv & Hall).
    injection Hl as <-.
    exists entries, sc, vc. repeat split; try done.
    + by rewrite (Permutation_length Hperm).
    + by apply (Permutation_Forall (Permutation_sym Hperm)).
Qed.

(** ** The errors *)


(** ** [getRekorClient] *)

Lemma getRekorClient_resolves (baseURL : string) client verifier
    keyResp block pub :
  rekorClient_GetRekorClient ext baseURL = Ok client ->
  Pubkey_GetPublicKey ext client = Ok keyResp ->
  pem_Decode ext keyResp = Some block ->
  x509_ParsePKIXPublicKey ext block = Ok pub ->
  signature_LoadVerifier ext pub = Ok verifier ->
  getRekorClient ext baseURL =
  (Ok (client, verifier), resolutionCalls baseURL client keyResp block pub).
Proof.
  intros H1 H2 H3 H4 H5. unfold getRekorClient.
  rewrite H1. unfold call, callV, mbind, M_bind.
  by rewrite H2, H3, H4, H5.
Qed.

Lemma getRekorClient_outcome_resolves (baseURL : string) client verifier :
  outcome (getRekorClient ext baseURL) = Ok (client, verifier) <->
  resolves baseURL client verifier.
Proof.
  split.
  - unfold getRekorClient, call, callV, mbind, M_bind, resolves.
    destruct (rekorClient_GetRekorClient ext baseURL) as [c|?] eqn:H1;
      [|done].
    destruct (Pubkey_GetPublicKey ext c) as [k|?] eqn:H2; [|done].
    destruct (pem_Decode ext k) as [b|] eqn:H3; [|done].
    destruct (x509_ParsePKIXPublicKey ext b) as [pk|?] eqn:H4; [|done].
    destruct (signature_LoadVerifier ext pk) as [v|?] eqn:H5; [|done].
    simpl. intros [= <- <-]. by exists k, b, pk.
  - intros (k & b & pk & H1 & H2 & H3 & H4 & H5).
    by rewrite (getRekorClient_resolves _ _ _ _ _ _ H1 H2 H3 H4 H5).
Qed.

(** X1: [getRekorClient] returns a client and a verifier exactly when its five
    steps succeed in turn: building the client for the base URL, fetching the
    public key from it, decoding a PEM block, parsing the key and loading a
    verifier for it; the calls of such a run are these five, in this order. *)
Theorem getRekorClient_success (baseURL : string) client verifier :
  outcome (getRekorClient ext baseURL) = Ok (client, verifier) <->
  exists keyResp block pub,
    rekorClient_GetRekorClient ext baseURL = Ok client /\
    Pubkey_GetPublicKey ext client = Ok keyResp /\
    pem_Decode ext keyResp = Some block /\
    x509_ParsePKIXPublicKey ext block = Ok pub /\
    signature_LoadVerifier ext pub = Ok verifier /\
    calls (getRekorClient ext baseURL) =
    resolutionCalls baseURL client keyResp block pub.
Proof.
  rewrite getRekorClient_outcome_resolves. unfold resolves. split.
  - intros (k & b & pk & H1 & H2 & H3 & H4 & H5).
    exists k, b, pk. repeat split; try done.
    by rewrite (getRekorClient_resolves _ _ _ _ _ _ H1 H2 H3 H4 H5).
  - intros (k & b & pk & H1 & H2 & H3 & H4 & H5 & _). by exists k, b, pk.
Qed.

Ltac first_failure :=
  split;
  [ intros ?; simplify_eq; eauto 20
  | intros ?;
    repeat match goal with
           | H : _ \/ _ |- _ => destruct H
           | H : _ /\ _ |- _ => destruct H
           | H : exists _, _ |- _ => destruct H
           end;
    congruence ].

(** X2: [getRekorClient] fails with the error of its first failing step: the
    error of the client constructor, of the public key request, of the key
    parser or of the verifier loader, each after the steps before it have
    succeeded, or the error it creates itself when the fetched key holds no
    PEM block. *)
Theorem getRekorClient_failure (baseURL : string) (err : error) :
  outcome (getRekorClient ext baseURL) = Err err <->
  rekorClient_GetRekorClient ext baseURL = Err err \/
  (exists client,
     rekorClient_GetRekorClient ext baseURL = Ok client /\
     (Pubkey_GetPublicKey ext client = Err err \/
      exists keyResp,
        Pubkey_GetPublicKey ext client = Ok keyResp /\
        ((pem_Decode ext keyResp = None /\ err = PublicKeyDecodeFailed) \/
         exists block,
           pem_Decode ext keyResp = Some block /\
           (x509_ParsePKIXPublicKey ext block = Err err \/
            exists pub,
              x509_ParsePKIXPublicKey ext block = Ok pub /\
              signature_LoadVerifier ext pub = Err err)))).
Proof.
  unfold getRekorClient, call, callV, mbind, M_bind.
  destruct (rekorClient_GetRekorClient ext baseURL) as [c|e1] eqn:Eq1; simpl;
    [|first_failure].
  destruct (Pubkey_GetPublicKey ext c) as [k|e2] eqn:Eq2; simpl;
    [|first_failure].
  destruct (pem_Decode ext k) as [b|] eqn:Eq3; simpl; [|first_failure].
  destruct (x509_ParsePKIXPublicKey ext b) as [pk|e4] eqn:Eq4; simpl;
    [|first_failure].
  destruct (signature_LoadVerifier ext pk) as [v|e5] eqn:Eq5; simpl;
    first_failure.
Qed.

(** ** What a successful run establishes *)

Lemma structuralCheck_succeeds (e : Entry) :
  succeeds (structuralCheck ext e) <-> tlog_ValidateEntry ext e = None.
Proof.
  unfold succeeds, structuralCheck, callE.
  by destruct (tlog_ValidateEntry ext e).
Qed.

Lemma offlineCheck_succeeds (p : Verifier) (e : Entry) :
  succeeds (offlineCheck ext p e) <->
  tlog_VerifySET ext e (TlogVerifiers (trustedRoot p)) = None.
Proof.
  unfold succeeds, offlineCheck, callE.
  by destruct (tlog_VerifySET ext e _).
Qed.

Lemma crossChecks_succeeds sig (vc : VContent) (e : Entry) :
  succeeds (crossChecks sig vc e : M unit) <-> matchesEntity sig vc e.
Proof.
  unfold succeeds, matchesEntity. rewrite crossChecks_eval.
  rewrite <- bytes_Equal_eq.
  destruct (bytes_Equal _ _), (CompareKey _ _), (ValidAtTime _ _); simpl;
    split; try done; intros (? & ? & ?); done.
Qed.

Lemma crossChecks_succeeds_calls sig (vc : VContent) (e : Entry) :
  succeeds (crossChecks sig vc e : M unit) ->
  calls (crossChecks sig vc e : M unit) =
  [CallCompareKey (Certificate e); CallValidAtTime (IntegratedTime e)].
Proof.
  unfold succeeds. rewrite crossChecks_eval.
  by destruct (bytes_Equal _ _), (CompareKey _ _), (ValidAtTime _ _).
Qed.

Lemma verifyLogEntries_succeeds (logEntry : list (string * LogEntryAnon))
    (verifier : SigVerifier) :
  succeeds (verifyLogEntries ext logEntry verifier) <->
  Forall (fun kv => rekorVerify_VerifyLogEntry ext (snd kv) verifier = None)
         logEntry.
Proof.
  induction logEntry as [|[k v] rest IH]; simpl.
  - split; [constructor | reflexivity].
  - rewrite Forall_cons, <- IH. simpl. unfold callE.
    destruct (rekorVerify_VerifyLogEntry ext v verifier) as [err|]; simpl.
    + split; [discriminate | intros [? _]; discriminate].
    + unfold mbind, M_bind.
      destruct (verifyLogEntries ext rest verifier) as [r t].
      unfold succeeds; simpl. tauto.
Qed.

Lemma verifyLogEntries_succeeds_calls
    (logEntry : list (string * LogEntryAnon)) (verifier : SigVerifier) :
  succeeds (verifyLogEntries ext logEntry verifier) ->
  calls (verifyLogEntries ext logEntry verifier) =
  recordCalls logEntry verifier.
Proof.
  induction logEntry as [|[k v] rest IH]; simpl; [done|].
  unfold callE.
  destruct (rekorVerify_VerifyLogEntry ext v verifier) as [err|]; simpl;
    [discriminate|].
  unfold mbind, M_bind.
  destruct (verifyLogEntries ext rest verifier) as [r t].
  unfold succeeds in *; simpl in *. intros H. by rewrite (IH H).
Qed.

Lemma onlineCheck_succeeds (p : Verifier) (e : Entry) :
  succeeds (onlineCheck ext p e) <->
  exists tv client verifier (logEntry : list (string * LogEntryAnon)),
    tlogVerifiers p !! hex_EncodeToString (LogKeyID e) = Some tv /\
    resolves (BaseURL tv) client verifier /\
    Entries_SearchLogQuery ext client [LogIndex e] = Ok [logEntry] /\
    Forall (fun kv => rekorVerify_VerifyLogEntry ext (snd kv) verifier = None)
           logEntry.
Proof.
  split.
  - unfold succeeds, onlineCheck.
    destruct (tlogVerifiers p !! _) as [tv|] eqn:Hl; [|done].
    destruct (getRekorClient ext (BaseURL tv)) as [[[c v]|err] t] eqn:Hc;
      [|done].
    unfold mbind, M_bind, call.
    destruct (Entries_SearchLogQuery ext c [LogIndex e])
      as [[|r [|r' rs]]|err] eqn:Hq; try done.
    destruct (verifyLogEntries ext r v) as [res t'] eqn:Hv. simpl.
    intros ->. exists tv, c, v, r. repeat split; try done.
    + apply getRekorClient_outcome_resolves. by rewrite Hc.
    + apply verifyLogEntries_succeeds. unfold succeeds. by rewrite Hv.
  - intros (tv & c & v & r & Hl & Hres & Hq & Hall).
    apply getRekorClient_outcome_resolves in Hres.
    rewrite (onlineCheck_queried p e tv c v _ Hl Hres Hq).
    by apply verifyLogEntries_succeeds.
Qed.

Lemma verifyEntry_succeeds_parts p sig (vc : VContent) (e : Entry) :
  succeeds (verifyEntry ext p sig vc e) <->
  succeeds (structuralCheck ext e) /\
  succeeds (strategyCheck ext p e) /\
  succeeds (crossChecks sig vc e : M unit).
Proof.
  destruct (outcome_cases (structuralCheck ext e)) as [Hs | [x Hx]].
  - destruct (outcome_cases (strategyCheck ext p e)) as [Ht | [y Hy]].
    + rewrite (verifyEntry_after_strategy p sig vc e Hs Ht).
      unfold succeeds at 1; simpl. unfold succeeds at 3. tauto.
    + rewrite (verifyEntry_strategy_failure p sig vc e y Hs Hy).
      unfold succeeds, failsWith in *; simpl. rewrite Hy.
      split; [discriminate | intros (_ & ? & _); discriminate].
  - rewrite (verifyEntry_structural_failure p sig vc e x Hx).
    unfold succeeds, failsWith in *; simpl. rewrite Hx.
    split; [discriminate | intros (? & _); discriminate].
Qed.

Lemma verifyEntry_passesOffline p sig (vc : VContent) (e : Entry) :
  online p = false ->
  succeeds (verifyEntry ext p sig vc e) <-> passesOffline p sig vc e.
Proof.
  intros Hoff. rewrite verifyEntry_succeeds_parts.
  unfold strategyCheck. rewrite Hoff. simpl.
  rewrite structuralCheck_succeeds, offlineCheck_succeeds,
    crossChecks_succeeds.
  reflexivity.
Qed.

Lemma verifyEntry_passesOnline p sig (vc : VContent) (e : Entry) :
  online p = true ->
  succeeds (verifyEntry ext p sig vc e) <-> passesOnline p sig vc e.
Proof.
  intros Hon. rewrite verifyEntry_succeeds_parts.
  unfold strategyCheck. rewrite Hon. simpl.
  rewrite structuralCheck_succeeds, onlineCheck_succeeds,
    crossChecks_succeeds.
  reflexivity.
Qed.

(** X3: in offline mode [Verify] succeeds exactly when the entries are
    extracted and are at least as many as the threshold, both contents are
    extracted, and every entry is accepted by [tlog.ValidateEntry] and by
    [tlog.VerifySET] against the verifiers of the trusted root, carries the
    signature of the entity, a certificate its key comparison accepts and an
    integrated time its validity predicate accepts. *)
Theorem Verify_offline_success p (entity : Entity) :
  online p = false ->
  (succeeds (Verify ext p entity) <->
   exists entries sc vc,
     TlogEntries entity = Ok entries /\
     threshold p <= Z.of_nat (length entries) /\
     SignatureContent entity = Ok sc /\
     VerificationContent entity = Ok vc /\
     Forall (passesOffline p (GetSignature sc) vc) entries).
Proof.
  intros Hoff. rewrite Verify_succeeds_iff.
  split; intros (entries & sc & vc & H & Hge & Hs & Hv & Hall);
    exists entries, sc, vc; repeat split; try done;
    (eapply Forall_impl; [exact Hall|]); intros e;
    by apply verifyEntry_passesOffline.
Qed.

(** X4: in online mode [Verify] succeeds exactly when the entries are
    extracted and are at least as many as the threshold, both contents are
    extracted, and for every entry: [tlog.ValidateEntry] accepts it, the hex
    encoding of its key identifier is a key of the configured mapping, the
    log at the mapped base URL resolves, the query for its index returns
    exactly one record, every item of that record passes
    [rekorVerify.VerifyLogEntry] under the resolved verifier, and the three
    cross-checks hold. *)
Theorem Verify_online_success p (entity : Entity) :
  online p = true ->
  (succeeds (Verify ext p entity) <->
   exists entries sc vc,
     TlogEntries entity = Ok entries /\
     threshold p <= Z.of_nat (length entries) /\
     SignatureContent entity = Ok sc /\
     VerificationContent entity = Ok vc /\
     Forall (passesOnline p (GetSignature sc) vc) entries).
Proof.
  intros Hon. rewrite Verify_succeeds_iff.
  split; intros (entries & sc & vc & H & Hge & Hs & Hv & Hall);
    exists entries, sc, vc; repeat split; try done;
    (eapply Forall_impl; [exact Hall|]); intros e;
    by apply verifyEntry_passesOnline.
Qed.

(** ** The two modes do not mix *)

Lemma verifyEntries_calls_Forall (P : Event -> Prop) p sig (vc : VContent)
    (entries : list Entry) :
  (forall e, Forall P (calls (verifyEntry ext p sig vc e))) ->
  Forall P (calls (verifyEntries ext p sig vc entries)).
Proof.
  intros HP. induction entries as [|e rest IH]; simpl; [constructor|].
  apply calls_bind_Forall; [apply HP | by intros].
Qed.

Lemma Verify_calls_Forall (P : Event -> Prop) p (entity : Entity) :
  P CallTlogEntries -> P CallSignatureContent -> P CallVerificationContent ->
  (forall sig vc e, Forall P (calls (verifyEntry ext p sig vc e))) ->
  Forall P (calls (Verify ext p entity)).
Proof.
  intros H1 H2 H3 HP. unfold Verify.
  apply calls_bind_Forall; [by repeat constructor|]. intros entries.
  destruct (_ <? _); [constructor|].
  apply calls_bind_Forall; [by repeat constructor|]. intros sc.
  apply calls_bind_Forall; [by repeat constructor|]. intros vc.
  by apply verifyEntries_calls_Forall.
Qed.

Lemma crossChecks_calls_Forall (P : Event -> Prop) sig (vc : VContent)
    (e : Entry) :
  P (CallCompareKey (Certificate e)) ->
  P (CallValidAtTime (IntegratedTime e)) ->
  Forall P (calls (crossChecks sig vc e : M unit)).
Proof.
  intros H1 H2. rewrite crossChecks_eval.
  destruct (bytes_Equal _ _), (CompareKey _ _), (ValidAtTime _ _); simpl;
    by repeat constructor.
Qed.

(** X5: a verifier in offline mode never reaches a log: whatever the entity
    and the outcome, no call of the run resolves a client, fetches or decodes
    a public key, queries a log or verifies a remote record. *)
Theorem Verify_offline_stays_local p (entity : Entity) :
  online p = false ->
  Forall (fun ev => isNetwork ev = false /\ isResolution ev = false /\
                    isSearchLogQuery ev = false /\
                    isVerifyLogEntry ev = false)
         (calls (Verify ext p entity)).
Proof.
  intros Hoff. apply Verify_calls_Forall; try done.
  intros sig vc e. unfold verifyEntry.
  apply calls_bind_Forall;
    [unfold structuralCheck; rewrite callE_calls; by repeat constructor|].
  intros _. apply calls_bind_Forall.
  - unfold strategyCheck. rewrite Hoff. simpl. unfold offlineCheck.
    rewrite callE_calls. by repeat constructor.
  - intros _. by apply crossChecks_calls_Forall.
Qed.

Lemma onlineCheck_calls_not_SET (p : Verifier) (e : Entry) :
  Forall (fun ev => isVerifySET ev = false) (calls (onlineCheck ext p e)).
Proof.
  unfold onlineCheck.
  destruct (tlogVerifiers p !! _) as [tv|]; [|constructor].
  apply calls_bind_Forall.
  - eapply Forall_impl; [apply getRekorClient_calls|]. by intros [].
  - intros [c v]. apply calls_bind_Forall; [by repeat constructor|].
    intros [|r [|r' rs]]; try constructor.
    induction r as [|[k x] rest IH]; simpl; [constructor|].
    apply calls_bind_Forall;
      [rewrite callE_calls; by repeat constructor | by intros].
Qed.

(** X6: a verifier in online mode never calls [tlog.VerifySET]: the signed
    entry timestamp of an entry is not checked in that mode. *)
Theorem Verify_online_skips_SET p (entity : Entity) :
  online p = true ->
  Forall (fun ev => isVerifySET ev = false) (calls (Verify ext p entity)).
Proof.
  intros Hon. apply Verify_calls_Forall; try done.
  intros sig vc e. unfold verifyEntry.
  apply calls_bind_Forall;
    [unfold structuralCheck; rewrite callE_calls; by repeat constructor|].
  intros _. apply calls_bind_Forall.
  - unfold strategyCheck. rewrite Hon. simpl. apply onlineCheck_calls_not_SET.
  - intros _. by apply crossChecks_calls_Forall.
Qed.

(** *** What each mode reads of the verifier *)

Lemma verifyEntries_ext_eq (p p' : Verifier) sig (vc : VContent)
    (entries : list Entry) :
  (forall e, strategyCheck ext p' e = strategyCheck ext p e) ->
  verifyEntries ext p' sig vc entries = verifyEntries ext p sig vc entries.
Proof.
  intros H. induction entries as [|e rest IH]; simpl; [done|].
  unfold verifyEntry. by rewrite H, IH.
Qed.

Lemma Verify_ext_eq (p p' : Verifier) (entity : Entity) :
  threshold p' = threshold p ->
  (forall e, strategyCheck ext p' e = strategyCheck ext p e) ->
  Verify ext p' entity = Verify ext p entity.
Proof.
  intros Ht H. unfold Verify. rewrite Ht.
  destruct (TlogEntries entity) as [entries|err]; [|done].
  unfold call, mbind, M_bind.
  destruct (_ <? _); [done|].
  destruct (SignatureContent entity) as [sc|err]; [|done].
  destruct (VerificationContent entity) as [vc|err]; [|done].
  by rewrite (verifyEntries_ext_eq p p' _ _ _ H).
Qed.

(** X7: in online mode the trusted root plays no part: replacing it by any
    other root leaves the result and the calls of [Verify] unchanged. *)
Theorem Verify_online_ignores_trustedRoot p (entity : Entity) r :
  online p = true ->
  Verify ext (withTrustedRoot p r) entity = Verify ext p entity.
Proof.
  intros Hon. apply Verify_ext_eq; [done|].
  intros e. unfold strategyCheck. simpl. by rewrite Hon.
Qed.

(** X8: in offline mode the mapping from key identifiers to log verifiers
    plays no part: replacing it by any other mapping leaves the result and the
    calls of [Verify] unchanged. *)
Theorem Verify_offline_ignores_tlogVerifiers p (entity : Entity) vs :
  online p = false ->
  Verify ext (withTlogVerifiers p vs) entity = Verify ext p entity.
Proof.
  intros Hoff. apply Verify_ext_eq; [done|].
  intros e. unfold strategyCheck. simpl. by rewrite Hoff.
Qed.

(** X9: in online mode only the base URL of a configured log verifier is
    read: changing the rest of every verifier of the mapping, the key
    material, leaves the result and the calls of [Verify] unchanged; the key
    an entry is verified with is the one fetched from the log. *)
Theorem Verify_online_ignores_keyMaterial p (entity : Entity)
    (f : @TlogVerifier KeyMaterial -> @TlogVerifier KeyMaterial) :
  online p = true ->
  (forall tv, BaseURL (f tv) = BaseURL tv) ->
  Verify ext (withTlogVerifiers p (f <$> tlogVerifiers p)) entity =
  Verify ext p entity.
Proof.
  intros Hon Hf. apply Verify_ext_eq; [done|].
  intros e. unfold strategyCheck. simpl. rewrite Hon. simpl.
  unfold onlineCheck. simpl. rewrite lookup_fmap.
  destruct (tlogVerifiers p !! _) as [tv|]; simpl; [|done].
  by rewrite Hf.
Qed.

(** X10: the threshold is only a gate on the number of entries: for two
    thresholds that the number of entries both meets, [Verify] gives the same
    result with the same calls; every entry still has to pass. *)
Theorem Verify_threshold_only_gates p (entity : Entity) entries t :
  TlogEntries entity = Ok entries ->
  threshold p <= Z.of_nat (length entries) ->
  t <= Z.of_nat (length entries) ->
  Verify ext (withThreshold p t) entity = Verify ext p entity.
Proof.
  intros H Hp Ht. unfold Verify. rewrite H.
  unfold call, mbind, M_bind. simpl.
  apply Z.ltb_ge in Hp, Ht. rewrite Hp, Ht.
  destruct (SignatureContent entity) as [sc|err]; [|done].
  destruct (VerificationContent entity) as [vc|err]; [|done].
  by rewrite (verifyEntries_ext_eq p (withThreshold p t)).
Qed.

(** ** Failures of the steps before the cross-checks *)

Lemma strategy_failure_run p (entity : Entity) sc (vc : VContent)
    pre e post (err : error) (t : list Event) :
  reaches p entity sc vc pre e post ->
  tlog_ValidateEntry ext e = None ->
  strategyCheck ext p e = (Err err, t) ->
  Verify ext p entity =
  (Err err,
   fetchCalls ++ callsOfEntries p (GetSignature sc) vc pre
     ++ CallValidateEntry e :: t).
Proof.
  intros Hr Hval Hst.
  assert (Hs : succeeds (structuralCheck ext e))
    by by apply structuralCheck_succeeds.
  assert (Hf : failsWith (strategyCheck ext p e) err)
    by (unfold failsWith; by rewrite Hst).
  pose proof (verifyEntry_strategy_failure p (GetSignature sc) vc e err Hs Hf)
    as Hv.
  rewrite Hst in Hv. simpl in Hv.
  rewrite (Verify_reaches_failure _ _ _ _ _ _ _ err Hr);
    [| unfold failsWith; by rewrite Hv].
  by rewrite Hv.
Qed.

(** X11: when [tlog.ValidateEntry] rejects an entry that the run reaches,
    [Verify] returns its error as it is, in either mode, and the validation is
    the last call: the entry gets no SET check, no log lookup and no
    cross-check, and the entries after it are not looked at. *)
Theorem Verify_structural_failure p (entity : Entity) sc (vc : VContent)
    pre e post (err : error) :
  reaches p entity sc vc pre e post ->
  tlog_ValidateEntry ext e = Some err ->
  Verify ext p entity =
  (Err err,
   fetchCalls ++ callsOfEntries p (GetSignature sc) vc pre
     ++ [CallValidateEntry e]).
Proof.
  intros Hr Hval.
  assert (Hf : failsWith (structuralCheck ext e) err).
  { unfold failsWith, structuralCheck, callE. by rewrite Hval. }
  rewrite (Verify_reaches_failure _ _ _ _ _ _ _ err Hr);
    rewrite (verifyEntry_structural_failure p _ vc e err Hf); done.
Qed.

(** X12: in offline mode, when [tlog.VerifySET] rejects a structurally valid
    entry that the run reaches, [Verify] returns its error as it is and the
    SET check is the last call: none of the cross-checks is made. *)
Theorem Verify_offline_SET_failure p (entity : Entity) sc (vc : VContent)
    pre e post (err : error) :
  online p = false ->
  reaches p entity sc vc pre e post ->
  tlog_ValidateEntry ext e = None ->
  tlog_VerifySET ext e (TlogVerifiers (trustedRoot p)) = Some err ->
  Verify ext p entity =
  (Err err,
   fetchCalls ++ callsOfEntries p (GetSignature sc) vc pre
     ++ [CallValidateEntry e; CallVerifySET e]).
Proof.
  intros Hoff Hr Hval Hset.
  apply (strategy_failure_run p entity sc vc pre e post err _ Hr Hval).
  unfold strategyCheck. rewrite Hoff. simpl.
  unfold offlineCheck, callE. by rewrite Hset.
Qed.

(** X13: in online mode, when the log of a reached, structurally valid entry
    does not resolve, [Verify] returns the error of [getRekorClient] and the
    run ends with the calls of that resolution: the log is not queried. *)
Theorem Verify_online_resolution_failure p (entity : Entity) sc
    (vc : VContent) pre e post tv (err : error) :
  online p = true ->
  reaches p entity sc vc pre e post ->
  tlog_ValidateEntry ext e = None ->
  tlogVerifiers p !! hex_EncodeToString (LogKeyID e) = Some tv ->
  outcome (getRekorClient ext (BaseURL tv)) = Err err ->
  Verify ext p entity =
  (Err err,
   fetchCalls ++ callsOfEntries p (GetSignature sc) vc pre
     ++ CallValidateEntry e :: calls (getRekorClient ext (BaseURL tv))) /\
  Forall (fun ev => isSearchLogQuery ev = false)
         (calls (getRekorClient ext (BaseURL tv))).
Proof.
  intros Hon Hr Hval Hl Hc. split.
  - apply (strategy_failure_run p entity sc vc pre e post err _ Hr Hval).
    unfold strategyCheck. rewrite Hon. simpl.
    unfold onlineCheck. rewrite Hl. by rewrite (bind_Err _ _ err Hc).
  - eapply Forall_impl; [apply getRekorClient_calls|]. by intros [].
Qed.

(** X14: in online mode, when the query for the index of a reached,
    structurally valid entry fails, [Verify] returns the error of the query
    and the query is the last call of the run. *)
Theorem Verify_online_query_failure p (entity : Entity) sc (vc : VContent)
    pre e post tv client verifier (err : error) :
  online p = true ->
  reaches p entity sc vc pre e post ->
  tlog_ValidateEntry ext e = None ->
  tlogVerifiers p !! hex_EncodeToString (LogKeyID e) = Some tv ->
  outcome (getRekorClient ext (BaseURL tv)) = Ok (client, verifier) ->
  Entries_SearchLogQuery ext client [LogIndex e] = Err err ->
  Verify ext p entity =
  (Err err,
   fetchCalls ++ callsOfEntries p (GetSignature sc) vc pre
     ++ CallValidateEntry e :: calls (getRekorClient ext (BaseURL tv))
     ++ [CallSearchLogQuery client [LogIndex e]]).
Proof.
  intros Hon Hr Hval Hl Hc Hq.
  apply (strategy_failure_run p entity sc vc pre e post err _ Hr Hval).
  unfold strategyCheck. rewrite Hon. simpl.
  unfold onlineCheck. rewrite Hl. rewrite (bind_Ok _ _ _ Hc). simpl.
  by rewrite Hq.
Qed.

Lemma verifyLogEntries_first_failure
    (before after : list (string * LogEntryAnon)) k v
    (verifier : SigVerifier) (err : error) :
  Forall (fun kv => rekorVerify_VerifyLogEntry ext (snd kv) verifier = None)
         before ->
  rekorVerify_VerifyLogEntry ext v verifier = Some err ->
  verifyLogEntries ext (before ++ (k, v) :: after) verifier =
  (Err err, recordCalls (before ++ [(k, v)]) verifier).
Proof.
  intros Hb Hv. induction Hb as [|[k' v'] rest Hx Hrest IH]; simpl.
  - unfold callE. by rewrite Hv.
  - simpl in Hx. unfold callE at 1. rewrite Hx, IH. done.
Qed.

(** X15: in online mode, when the query for a reached, structurally valid
    entry returns one record, its items are verified in order with the
    resolved verifier and [Verify] returns the error of the first item that
    [rekorVerify.VerifyLogEntry] rejects; the items after it are not verified
    and no cross-check is made. *)
Theorem Verify_online_record_failure p (entity : Entity) sc (vc : VContent)
    pre e post tv client verifier
    (before after : list (string * LogEntryAnon)) k v (err : error) :
  online p = true ->
  reaches p entity sc vc pre e post ->
  tlog_ValidateEntry ext e = None ->
  tlogVerifiers p !! hex_EncodeToString (LogKeyID e) = Some tv ->
  outcome (getRekorClient ext (BaseURL tv)) = Ok (client, verifier) ->
  Entries_SearchLogQuery ext client [LogIndex e] =
    Ok [before ++ (k, v) :: after] ->
  Forall (fun kv => rekorVerify_VerifyLogEntry ext (snd kv) verifier = None)
         before ->
  rekorVerify_VerifyLogEntry ext v verifier = Some err ->
  Verify ext p entity =
  (Err err,
   fetchCalls ++ callsOfEntries p (GetSignature sc) vc pre
     ++ CallValidateEntry e :: calls (getRekorClient ext (BaseURL tv))
     ++ CallSearchLogQuery client [LogIndex e]
     :: recordCalls (before ++ [(k, v)]) verifier).
Proof.
  intros Hon Hr Hval Hl Hc Hq Hb Hv.
  apply (strategy_failure_run p entity sc vc pre e post err _ Hr Hval).
  unfold strategyCheck. rewrite Hon. simpl.
  rewrite (onlineCheck_queried p e tv client verifier _ Hl Hc Hq).
  by rewrite (verifyLogEntries_first_failure _ _ _ _ _ _ Hb Hv).
Qed.

(** ** The calls of a successful run *)



Lemma countCalls_app (f : Event -> bool) (a b : list Event) :
  countCalls f (a ++ b) = (countCalls f a + countCalls f b)%nat.
Proof. unfold countCalls. by rewrite List.filter_app, length_app. Qed.

Lemma countCalls_none (f : Event -> bool) (t : list Event) :
  Forall (fun ev => f ev = false) t -> countCalls f t = 0%nat.
Proof.
  unfold countCalls. induction 1 as [|ev t Hev _ IH]; simpl; [done|].
  by rewrite Hev.
Qed.

Lemma countCalls_callsOfEntries (f : Event -> bool) p sig (vc : VContent)
    (entries : list Entry) :
  Forall (fun e => countCalls f (calls (verifyEntry ext p sig vc e)) = 1%nat)
         entries ->
  countCalls f (callsOfEntries p sig vc entries) = length entries.
Proof.
  unfold callsOfEntries. induction 1 as [|e rest He _ IH]; simpl; [done|].
  by rewrite countCalls_app, He, IH.
Qed.

Lemma recordCalls_only_verify (logEntry : list (string * LogEntryAnon))
    (verifier : SigVerifier) (f : Event -> bool) :
  (forall v, f (CallVerifyLogEntry v verifier) = false) ->
  Forall (fun ev => f ev = false) (recordCalls logEntry verifier).
Proof.
  intros Hf. unfold recordCalls. apply Forall_map, Forall_forall.
  intros [k v] _. apply Hf.
Qed.

Lemma verifyEntry_online_calls p sig (vc : VContent) (e : Entry) :
  online p = true ->
  succeeds (verifyEntry ext p sig vc e) ->
  exists (tv : @TlogVerifier KeyMaterial) client verifier keyResp block pub
         logEntry,
    calls (verifyEntry ext p sig vc e) =
    CallValidateEntry e
      :: resolutionCalls (BaseURL tv) client keyResp block pub
      ++ CallSearchLogQuery client [LogIndex e]
      :: recordCalls logEntry verifier
      ++ [CallCompareKey (Certificate e);
          CallValidAtTime (IntegratedTime e)].
Proof.
  intros Hon Hok.
  apply verifyEntry_succeeds_parts in Hok as (Hs & Ht & Hc).
  rewrite (verifyEntry_after_strategy p sig vc e Hs Ht). simpl.
  rewrite (crossChecks_succeeds_calls _ _ _ Hc).
  unfold strategyCheck in *. rewrite Hon in *. simpl in *.
  apply onlineCheck_succeeds in Ht
    as (tv & c & v & r & Hl & (k & b & pk & H1 & H2 & H3 & H4 & H5) & Hq & Hall).
  pose proof (getRekorClient_resolves _ _ _ _ _ _ H1 H2 H3 H4 H5) as Hres.
  assert (Hout : outcome (getRekorClient ext (BaseURL tv)) = Ok (c, v))
    by by rewrite Hres.
  rewrite (onlineCheck_queried p e tv c v _ Hl Hout Hq). simpl.
  rewrite Hres. simpl.
  apply verifyLogEntries_succeeds in Hall.
  rewrite (verifyLogEntries_succeeds_calls _ _ Hall).
  exists tv, c, v, k, b, pk, r.
  unfold resolutionCalls. simpl. by rewrite <- ?app_assoc.
Qed.

(** X17: a successful run in online mode resolves a client once and queries
    the log once for each entry: a client is not kept from one entry to the
    next, even when two entries name the same log. *)
Theorem Verify_online_success_calls p (entity : Entity) entries :
  online p = true ->
  TlogEntries entity = Ok entries ->
  succeeds (Verify ext p entity) ->
  countCalls isGetRekorClient (calls (Verify ext p entity)) = length entries /\
  countCalls isSearchLogQuery (calls (Verify ext p entity)) = length entries.
Proof.
  intros Hon H Hok.
  apply Verify_succeeds_iff in Hok
    as (l & sc & vc & Hl & Hge & Hs & Hv & Hall).
  rewrite H in Hl. injection Hl as <-.
  rewrite (Verify_loop _ _ _ _ _ H Hge Hs Hv).
  rewrite (verifyEntries_all_pass _ _ _ _ Hall). simpl.
  split.
  - change (countCalls isGetRekorClient
              (callsOfEntries p (GetSignature sc) vc entries) = length entries).
    apply countCalls_callsOfEntries.
    eapply Forall_impl; [exact Hall|]. intros e He. simpl.
    destruct (verifyEntry_online_calls p _ vc e Hon He)
      as (tv & c & v & k & b & pk & r & ->).
    unfold resolutionCalls. simpl.
    change (S (countCalls isGetRekorClient
                 (recordCalls r v ++
                  [CallCompareKey (Certificate e);
                   CallValidAtTime (IntegratedTime e)])) = 1%nat).
    rewrite countCalls_app, countCalls_none;
      [done | by apply recordCalls_only_verify].
  - change (countCalls isSearchLogQuery
              (callsOfEntries p (GetSignature sc) vc entries) = length entries).
    apply countCalls_callsOfEntries.
    eapply Forall_impl; [exact Hall|]. intros e He. simpl.
    destruct (verifyEntry_online_calls p _ vc e Hon He)
      as (tv & c & v & k & b & pk & r & ->).
    unfold resolutionCalls. simpl.
    change (S (countCalls isSearchLogQuery
                 (recordCalls r v ++
                  [CallCompareKey (Certificate e);
                   CallValidAtTime (IntegratedTime e)])) = 1%nat).
    rewrite countCalls_app, countCalls_none;
      [done | by apply recordCalls_only_verify].
Qed.

(** ** Keys and error texts *)

Lemma hex_byte_round_trip (v : ascii) :
  ascii_of_N
    (16 * fromHexChar (hexdigit (N.shiftr (N_of_ascii v) 4))
     + fromHexChar (hexdigit (N.land (N_of_ascii v) 15))) = v.
Proof.
  destruct v as [[] [] [] [] [] [] [] []]; vm_compute; reflexivity.
Qed.

Lemma hex_EncodeToString_inj (a b : string) :
  hex_EncodeToString a = hex_EncodeToString b -> a = b.
Proof.
  revert b. induction a as [|v a IH]; intros [|w b]; simpl; try done.
  intros [= Hhi Hlo Hrest]. f_equal; [|by apply IH].
  rewrite <- (hex_byte_round_trip v), <- (hex_byte_round_trip w).
  by rewrite Hhi, Hlo.
Qed.

(** X18: the hex encoding under which a log key identifier is looked up is
    injective: two different key identifiers never share an entry of the
    mapping, and the encoding is twice as long as the identifier. *)
Theorem hex_EncodeToString_injective (a b : string) :
  (hex_EncodeToString a = hex_EncodeToString b -> a = b) /\
  String.length (hex_EncodeToString a) = (2 * String.length a)%nat.
Proof.
  split; [apply hex_EncodeToString_inj|].
  induction a as [|v a IH]; simpl; [done|]. rewrite IH. lia.
Qed.

Lemma fmt_d_inj (i j : Z) : fmt_d i = fmt_d j -> i = j.
Proof.
  unfold fmt_d. intros H. apply DecimalZ.to_int_inj.
  assert (Hn : forall z, Z.to_int z <> Decimal.Pos Decimal.Nil /\
                         Z.to_int z <> Decimal.Neg Decimal.Nil).
  { intros [|q|q]; simpl; split; try discriminate;
      intros [= Hq]; by apply DecimalPos.Unsigned.to_uint_nonnil in Hq. }
  pose proof (NilZero.isi (Z.to_int i) (proj1 (Hn i)) (proj2 (Hn i))) as Hi.
  pose proof (NilZero.isi (Z.to_int j) (proj1 (Hn j)) (proj2 (Hn j))) as Hj.
  rewrite H in Hi. rewrite Hi in Hj. by injection Hj.
Qed.

(** X19: the errors [Verify] creates for an unknown log and for a missing log
    entry tell which key identifier and which log index they are about: two
    such errors are equal only for the same key identifier, respectively the
    same log index. *)
Theorem created_errors_carry_key_and_index :
  (forall a b : string,
     UnknownLogIdentifier (hex_EncodeToString a) =
     UnknownLogIdentifier (hex_EncodeToString b) -> a = b) /\
  (forall i j : Z, LogEntryNotFound i = LogEntryNotFound j -> i = j).
Proof.
  split.
  - intros a b [= H]. apply String.app_inj in H.
    by apply hex_EncodeToString_inj.
  - intros i j [= H]. apply String.app_inj in H. by apply fmt_d_inj.
Qed.

(** ** Counting entries *)

(** X20: the threshold counts entries, not distinct entries: an entity that
    presents one passing entry [n] times is accepted under any threshold up to
    [n]. *)
Theorem Verify_threshold_counts_duplicates p (entity : Entity) sc
    (vc : VContent) (e : Entry) (n : nat) :
  TlogEntries entity = Ok (replicate n e) ->
  threshold p <= Z.of_nat n ->
  SignatureContent entity = Ok sc ->
  VerificationContent entity = Ok vc ->
  succeeds (verifyEntry ext p (GetSignature sc) vc e) ->
  succeeds (Verify ext p entity).
Proof.
  intros H Hge Hs Hv He. apply Verify_succeeds_iff.
  exists (replicate n e), sc, vc. repeat split; try done.
  - by rewrite length_replicate.
  - apply Forall_forall. intros x Hx.
    apply elem_of_replicate in Hx as [-> _]. done.
Qed.

End Properties.

(** ** The statements on the concrete world *)

Lemma Verify_below_threshold_witness :
  failsWith (Verify Example.ext (Example.offlineVerifier 2)
               (Example.entity [Example.good 1]))
    (InsufficientEvidence 1 2) /\
  calls (Verify Example.ext (Example.offlineVerifier 2)
           (Example.entity [Example.good 1])) = [CallTlogEntries] /\
  Forall (fun ev => isPerEntryWork ev = false)
    (calls (Verify Example.ext (Example.offlineVerifier 2)
              (Example.entity [Example.good 1]))).
Proof.
  apply (Verify_below_threshold Example.ext (Example.offlineVerifier 2)
           (Example.entity [Example.good 1]) [Example.good 1]).
  - reflexivity.
  - simpl. lia.
Defined.

(** The claim C2 as stated fails: with threshold 0 and no entry the entity
    passes the threshold gate and every entry passes every check, yet [Verify]
    returns the error of the signature content; with threshold 1 and one
    entry, the error returned is not the error of any check of the entry. *)
Lemma Verify_gate_passed_content_missing :
  (TlogEntries (Example.entityNoSignature []) = Ok [] /\
   threshold (Example.offlineVerifier 0) <= Z.of_nat (length (@nil (@Entry nat Z bool))) /\
   (forall sig vc,
      Forall (fun e => Forall succeeds
                         (checks Example.ext (Example.offlineVerifier 0) sig vc e))
             []) /\
   Verify Example.ext (Example.offlineVerifier 0) (Example.entityNoSignature []) =
   (Err Example.parseError, [CallTlogEntries; CallSignatureContent]) /\
   ~ succeeds (Verify Example.ext (Example.offlineVerifier 0)
                 (Example.entityNoSignature []))) /\
  (threshold (Example.offlineVerifier 1) <= 1 /\
   Verify Example.ext (Example.offlineVerifier 1)
     (Example.entityNoSignature [Example.good 1]) =
   (Err Example.parseError, [CallTlogEntries; CallSignatureContent]) /\
   (forall sig vc c,
      In c (checks Example.ext (Example.offlineVerifier 1) sig vc (Example.good 1)) ->
      ~ failsWith c Example.parseError)).
Proof.
  split; [repeat split|repeat split].
  - simpl. lia.
  - intros sig vc. constructor.
  - discriminate.
  - simpl. lia.
  - intros sig vc c Hin. unfold failsWith.
    destruct Hin as [<- | [<- | [<- | [<- | [<- | []]]]]].
    + discriminate.
    + discriminate.
    + unfold signatureCheck. by destruct (negb _).
    + unfold certificateCheck. simpl. by destruct (negb _).
    + unfold timeCheck. simpl. by destruct (negb _).
Qed.


(** The claim C8 as stated fails: below the threshold, the signature content
    is not fetched, and its parse failure is not what is returned. *)
Lemma Verify_shortfall_hides_parse_failure :
  SignatureContent (Example.entityNoSignature [Example.good 1]) =
  Err Example.parseError /\
  Verify Example.ext (Example.offlineVerifier 2)
    (Example.entityNoSignature [Example.good 1]) =
  (Err (InsufficientEvidence 1 2), [CallTlogEntries]) /\
  ~ failsWith (Verify Example.ext (Example.offlineVerifier 2)
                 (Example.entityNoSignature [Example.good 1]))
      Example.parseError /\
  ~ In CallSignatureContent
       (calls (Verify Example.ext (Example.offlineVerifier 2)
                 (Example.entityNoSignature [Example.good 1]))).
Proof.
  repeat split.
  - discriminate.
  - intros [H | []]. discriminate.
Qed.

Lemma Verify_all_or_first_failure_witness :
  (succeeds (Verify Example.ext (Example.offlineVerifier 1) Example.mismatchLast) <->
   Forall (fun e => Forall succeeds
             (checks Example.ext (Example.offlineVerifier 1)
                (GetSignature Example.sigContent) Example.verContent e))
          [Example.good 1; Example.otherSignature 1]) /\
  (~ succeeds (Verify Example.ext (Example.offlineVerifier 1) Example.mismatchLast) ->
   exists pre e post before c after err,
     [Example.good 1; Example.otherSignature 1] = pre ++ e :: post /\
     Forall (fun x => Forall succeeds
               (checks Example.ext (Example.offlineVerifier 1)
                  (GetSignature Example.sigContent) Example.verContent x))
            pre /\
     checks Example.ext (Example.offlineVerifier 1)
       (GetSignature Example.sigContent) Example.verContent e
     = before ++ c :: after /\
     Forall succeeds before /\
     failsWith c err /\
     failsWith (Verify Example.ext (Example.offlineVerifier 1) Example.mismatchLast)
       err) /\
  (succeeds (Verify Example.ext (Example.offlineVerifier 1) Example.mismatchLast) \/
   exists err,
     failsWith (Verify Example.ext (Example.offlineVerifier 1) Example.mismatchLast)
       err).
Proof.
  apply (Verify_all_or_first_failure Example.ext (Example.offlineVerifier 1)
           Example.mismatchLast Example.sigContent Example.verContent
           [Example.good 1; Example.otherSignature 1]).
  - reflexivity.
  - simpl. lia.
  - reflexivity.
  - reflexivity.
Defined.

Lemma Verify_empty_record_unverified_witness :
  succeeds (Verify Example.ext (Example.onlineVerifier 1)
              (Example.entity [Example.good 3])) /\
  Forall (fun ev => isVerifyLogEntry ev = false)
    (calls (Verify Example.ext (Example.onlineVerifier 1)
              (Example.entity [Example.good 3]))).
Proof.
  apply (Verify_empty_record_unverified Example.ext (Example.onlineVerifier 1)
           (Example.entity [Example.good 3]) Example.sigContent
           Example.verContent [Example.good 3]).
  - reflexivity.
  - reflexivity.
  - simpl. lia.
  - reflexivity.
  - reflexivity.
  - constructor; [|constructor]. split; [reflexivity|].
    exists Example.rekor, "https://rekor.example"%string, 7%nat.
    repeat split; vm_compute; reflexivity.
  - constructor; [reflexivity | constructor].
Defined.

Lemma Verify_query_result_count_witness :
  Verify Example.ext (Example.onlineVerifier 1) (Example.entity [Example.good 0]) =
  (Err (LogEntryNotFound 0),
   [CallTlogEntries; CallSignatureContent; CallVerificationContent;
    CallValidateEntry (Example.good 0);
    CallGetRekorClient "https://rekor.example";
    CallGetPublicKey "https://rekor.example"%string;
    CallPemDecode "-----BEGIN PUBLIC KEY-----";
    CallParsePKIXPublicKey [Byte.x30];
    CallLoadVerifier 7%nat;
    CallSearchLogQuery "https://rekor.example"%string [0]]) /\
  Verify Example.ext (Example.onlineVerifier 1) (Example.entity [Example.good 2]) =
  (Err AmbiguousLogEntry,
   [CallTlogEntries; CallSignatureContent; CallVerificationContent;
    CallValidateEntry (Example.good 2);
    CallGetRekorClient "https://rekor.example";
    CallGetPublicKey "https://rekor.example"%string;
    CallPemDecode "-----BEGIN PUBLIC KEY-----";
    CallParsePKIXPublicKey [Byte.x30];
    CallLoadVerifier 7%nat;
    CallSearchLogQuery "https://rekor.example"%string [2]]).
Proof.
  split.
  - apply (Verify_query_result_count Example.ext (Example.onlineVerifier 1)
             (Example.entity [Example.good 0]) Example.sigContent
             Example.verContent [] (Example.good 0) [] Example.rekor
             "https://rekor.example"%string 7%nat []).
    + reflexivity.
    + repeat split; simpl; [lia | constructor].
    + reflexivity.
    + vm_compute; reflexivity.
    + reflexivity.
    + reflexivity.
    + reflexivity.
  - apply (Verify_query_result_count Example.ext (Example.onlineVerifier 1)
             (Example.entity [Example.good 2]) Example.sigContent
             Example.verContent [] (Example.good 2) [] Example.rekor
             "https://rekor.example"%string 7%nat
             [[("uuid-2"%string, 1%nat)]; [("uuid-3"%string, 1%nat)]]).
    + reflexivity.
    + repeat split; simpl; [lia | constructor].
    + reflexivity.
    + vm_compute; reflexivity.
    + reflexivity.
    + reflexivity.
    + simpl. lia.
Defined.

Lemma Verify_unknown_log_identifier_witness :
  Verify Example.ext (Example.onlineVerifier 1)
    (Example.entity [Example.good 1; Example.unknownLog]) =
  (Err (UnknownLogIdentifier "7a7a"),
   fetchCalls
     ++ callsOfEntries Example.ext (Example.onlineVerifier 1)
          (GetSignature Example.sigContent) Example.verContent
          [Example.good 1]
     ++ [CallValidateEntry Example.unknownLog]) /\
  calls (verifyEntry Example.ext (Example.onlineVerifier 1)
           (GetSignature Example.sigContent) Example.verContent
           Example.unknownLog)
  = [CallValidateEntry Example.unknownLog] /\
  Forall (fun ev => isNetwork ev = false)
    (calls (verifyEntry Example.ext (Example.onlineVerifier 1)
              (GetSignature Example.sigContent) Example.verContent
              Example.unknownLog)).
Proof.
  apply (Verify_unknown_log_identifier Example.ext (Example.onlineVerifier 1)
           (Example.entity [Example.good 1; Example.unknownLog])
           Example.sigContent Example.verContent
           [Example.good 1] Example.unknownLog []).
  - reflexivity.
  - vm_compute; reflexivity.
  - repeat split; simpl; [lia|].
    constructor; [vm_compute; reflexivity | constructor].
  - reflexivity.
Defined.

Lemma Verify_cross_checks_order_witness :
  Verify Example.ext (Example.offlineVerifier 1) Example.mismatchLast =
  (Err SignatureMismatch,
   fetchCalls
     ++ callsOfEntries Example.ext (Example.offlineVerifier 1)
          (GetSignature Example.sigContent) Example.verContent
          [Example.good 1]
     ++ CallValidateEntry (Example.otherSignature 1)
     :: calls (strategyCheck Example.ext (Example.offlineVerifier 1)
                 (Example.otherSignature 1))).
Proof.
  apply (Verify_cross_checks_order Example.ext (Example.offlineVerifier 1)
           Example.mismatchLast Example.sigContent Example.verContent
           [Example.good 1] (Example.otherSignature 1) []).
  - repeat split; simpl; [lia|].
    constructor; [vm_compute; reflexivity | constructor].
  - reflexivity.
  - vm_compute; reflexivity.
  - discriminate.
Defined.


Lemma Verify_fetch_order_witness :
  Verify Example.ext (Example.offlineVerifier 2)
    (Example.entityNoSignature [Example.good 1]) =
  (Err (InsufficientEvidence 1 2), [CallTlogEntries]) /\
  Verify Example.ext (Example.offlineVerifier 1)
    (Example.entityNoSignature [Example.good 1]) =
  (Err Example.parseError, [CallTlogEntries; CallSignatureContent]).
Proof.
  split.
  - apply (Verify_fetch_order Example.ext (Example.offlineVerifier 2)
             (Example.entityNoSignature [Example.good 1]) [Example.good 1]).
    + reflexivity.
    + simpl. lia.
  - apply (Verify_fetch_order Example.ext (Example.offlineVerifier 1)
             (Example.entityNoSignature [Example.good 1]) [Example.good 1]).
    + reflexivity.
    + simpl. lia.
    + reflexivity.
Defined.

Lemma Verify_permutation_witness :
  succeeds (Verify Example.ext (Example.offlineVerifier 2)
              (Example.entity [Example.good 1; Example.good 5])) <->
  succeeds (Verify Example.ext (Example.offlineVerifier 2)
              (withEntries (Example.entity [Example.good 1; Example.good 5])
                 [Example.good 5; Example.good 1])).
Proof.
  apply (Verify_permutation Example.ext (Example.offlineVerifier 2)
           (Example.entity [Example.good 1; Example.good 5])
           [Example.good 1; Example.good 5]
           [Example.good 5; Example.good 1]).
  - reflexivity.
  - apply perm_swap.
Defined.

Lemma Verify_no_entries_nonpositive_threshold_witness :
  threshold (Example.onlineVerifier (-3)) = -3 /\
  Verify Example.ext (Example.onlineVerifier (-3)) (Example.entity []) =
  (Ok tt, fetchCalls) /\
  Verify Example.ext (Example.offlineVerifier 0) (Example.entity []) =
  (Ok tt, fetchCalls).
Proof.
  split; [| split].
  - apply (proj1 (Verify_no_entries_nonpositive_threshold Example.ext)).
  - apply (proj2 (Verify_no_entries_nonpositive_threshold Example.ext)
             (Example.onlineVerifier (-3)) (Example.entity [])
             Example.sigContent Example.verContent).
    + simpl. lia.
    + reflexivity.
    + reflexivity.
    + reflexivity.
  - apply (proj2 (Verify_no_entries_nonpositive_threshold Example.ext)
             (Example.offlineVerifier 0) (Example.entity [])
             Example.sigContent Example.verContent).
    + simpl. lia.
    + reflexivity.
    + reflexivity.
    + reflexivity.
Defined.

(** ** Runs of the model *)

Example hex_EncodeToString_k1 : hex_EncodeToString "k1" = "6b31"%string.
Proof. reflexivity. Qed.

Example hex_EncodeToString_high_low :
  hex_EncodeToString (String (ascii_of_nat 255) (String (ascii_of_nat 10) ""))
  = "ff0a"%string.
Proof. reflexivity. Qed.

Example bytes_Equal_length :
  bytes_Equal [Byte.x01] [Byte.x01; Byte.x02] = false /\
  bytes_Equal [] [] = true.
Proof. split; reflexivity. Qed.

Example InsufficientEvidence_text :
  Error (InsufficientEvidence 1 2) =
  "not enough transparency log entries: 1 < 2"%string.
Proof. reflexivity. Qed.

(** Threshold 1, one entry, offline mode, the SET validates, signature,
    certificate and time match: [Verify] succeeds. *)
Example Verify_offline_one_good_entry :
  Verify Example.ext (Example.offlineVerifier 1)
    (Example.entity [Example.good 1]) =
  (Ok tt,
   [CallTlogEntries; CallSignatureContent; CallVerificationContent;
    CallValidateEntry (Example.good 1); CallVerifySET (Example.good 1);
    CallCompareKey 42%nat; CallValidAtTime 150]).
Proof. vm_compute; reflexivity. Qed.

(** Online mode, one record holding one entry that verifies. *)
Example Verify_online_one_good_entry :
  Verify Example.ext (Example.onlineVerifier 1)
    (Example.entity [Example.good 1]) =
  (Ok tt,
   [CallTlogEntries; CallSignatureContent; CallVerificationContent;
    CallValidateEntry (Example.good 1);
    CallGetRekorClient "https://rekor.example";
    CallGetPublicKey "https://rekor.example"%string;
    CallPemDecode "-----BEGIN PUBLIC KEY-----";
    CallParsePKIXPublicKey [Byte.x30];
    CallLoadVerifier 7%nat;
    CallSearchLogQuery "https://rekor.example"%string [1];
    CallVerifyLogEntry 1%nat 7%nat;
    CallCompareKey 42%nat; CallValidAtTime 150]).
Proof. vm_compute; reflexivity. Qed.

(** A structurally invalid entry stops the run at its validation. *)
Example Verify_malformed_entry :
  Verify Example.ext (Example.offlineVerifier 1)
    (Example.entity [Example.entry "k1" 1 Example.signature 42 150 false]) =
  (Err Example.unsupported,
   [CallTlogEntries; CallSignatureContent; CallVerificationContent;
    CallValidateEntry
      (Example.entry "k1" 1 Example.signature 42 150 false)]).
Proof. vm_compute; reflexivity. Qed.

(** An integrated time after the end of validity. *)
Example Verify_time_out_of_range :
  outcome (Verify Example.ext (Example.offlineVerifier 1)
             (Example.entity
                [Example.entry "k1" 1 Example.signature 42 201 true])) =
  Err TimeOutOfRange.
Proof. vm_compute; reflexivity. Qed.

(** ** The further statements on the concrete world *)

Lemma Verify_offline_success_witness :
  succeeds (Verify Example.ext (Example.offlineVerifier 1)
              (Example.entity [Example.good 1])) <->
  exists entries sc vc,
    TlogEntries (Example.entity [Example.good 1]) = Ok entries /\
    threshold (Example.offlineVerifier 1) <= Z.of_nat (length entries) /\
    SignatureContent (Example.entity [Example.good 1]) = Ok sc /\
    VerificationContent (Example.entity [Example.good 1]) = Ok vc /\
    Forall (passesOffline Example.ext (Example.offlineVerifier 1)
              (GetSignature sc) vc) entries.
Proof.
  apply (Verify_offline_success Example.ext (Example.offlineVerifier 1)
           (Example.entity [Example.good 1])).
  reflexivity.
Defined.

Lemma Verify_online_success_witness :
  succeeds (Verify Example.ext (Example.onlineVerifier 1)
              (Example.entity [Example.good 1])) <->
  exists entries sc vc,
    TlogEntries (Example.entity [Example.good 1]) = Ok entries /\
    threshold (Example.onlineVerifier 1) <= Z.of_nat (length entries) /\
    SignatureContent (Example.entity [Example.good 1]) = Ok sc /\
    VerificationContent (Example.entity [Example.good 1]) = Ok vc /\
    Forall (passesOnline Example.ext (Example.onlineVerifier 1)
              (GetSignature sc) vc) entries.
Proof.
  apply (Verify_online_success Example.ext (Example.onlineVerifier 1)
           (Example.entity [Example.good 1])).
  reflexivity.
Defined.

Lemma Verify_offline_stays_local_witness :
  Forall (fun ev => isNetwork ev = false /\ isResolution ev = false /\
                    isSearchLogQuery ev = false /\
                    isVerifyLogEntry ev = false)
    (calls (Verify Example.ext (Example.offlineVerifier 1)
              Example.mismatchLast)).
Proof.
  apply (Verify_offline_stays_local Example.ext (Example.offlineVerifier 1)
           Example.mismatchLast).
  reflexivity.
Defined.

Lemma Verify_online_skips_SET_witness :
  Forall (fun ev => isVerifySET ev = false)
    (calls (Verify Example.ext (Example.onlineVerifier 1)
              (Example.entity [Example.good 1; Example.good 0]))).
Proof.
  apply (Verify_online_skips_SET Example.ext (Example.onlineVerifier 1)
           (Example.entity [Example.good 1; Example.good 0])).
  reflexivity.
Defined.

Lemma Verify_online_ignores_trustedRoot_witness :
  Verify Example.ext
    (withTrustedRoot (Example.onlineVerifier 1) Example.emptyRoot)
    (Example.entity [Example.good 1]) =
  Verify Example.ext (Example.onlineVerifier 1)
    (Example.entity [Example.good 1]).
Proof.
  apply (Verify_online_ignores_trustedRoot Example.ext
           (Example.onlineVerifier 1) (Example.entity [Example.good 1])
           Example.emptyRoot).
  reflexivity.
Defined.

Lemma Verify_offline_ignores_tlogVerifiers_witness :
  Verify Example.ext
    (withTlogVerifiers (Example.offlineVerifier 1) Example.verifiers)
    (Example.entity [Example.good 1]) =
  Verify Example.ext (Example.offlineVerifier 1)
    (Example.entity [Example.good 1]).
Proof.
  apply (Verify_offline_ignores_tlogVerifiers Example.ext
           (Example.offlineVerifier 1) (Example.entity [Example.good 1])
           Example.verifiers).
  reflexivity.
Defined.

Lemma Verify_online_ignores_keyMaterial_witness :
  Verify Example.ext
    (withTlogVerifiers (Example.onlineVerifier 1)
       (Example.rekey <$> tlogVerifiers (Example.onlineVerifier 1)))
    (Example.entity [Example.good 1]) =
  Verify Example.ext (Example.onlineVerifier 1)
    (Example.entity [Example.good 1]).
Proof.
  apply (Verify_online_ignores_keyMaterial Example.ext
           (Example.onlineVerifier 1) (Example.entity [Example.good 1])
           Example.rekey).
  - reflexivity.
  - intros tv. reflexivity.
Defined.

Lemma Verify_threshold_only_gates_witness :
  Verify Example.ext (withThreshold (Example.offlineVerifier 1) 2)
    (Example.entity [Example.good 1; Example.otherSignature 5]) =
  Verify Example.ext (Example.offlineVerifier 1)
    (Example.entity [Example.good 1; Example.otherSignature 5]).
Proof.
  apply (Verify_threshold_only_gates Example.ext (Example.offlineVerifier 1)
           (Example.entity [Example.good 1; Example.otherSignature 5])
           [Example.good 1; Example.otherSignature 5] 2).
  - reflexivity.
  - simpl. lia.
  - simpl. lia.
Defined.

Lemma Verify_structural_failure_witness :
  Verify Example.ext (Example.onlineVerifier 1)
    (Example.entity [Example.good 1; Example.malformed; Example.good 1]) =
  (Err Example.unsupported,
   fetchCalls
     ++ callsOfEntries Example.ext (Example.onlineVerifier 1)
          (GetSignature Example.sigContent) Example.verContent
          [Example.good 1]
     ++ [CallValidateEntry Example.malformed]).
Proof.
  apply (Verify_structural_failure Example.ext (Example.onlineVerifier 1)
           (Example.entity [Example.good 1; Example.malformed; Example.good 1])
           Example.sigContent Example.verContent
           [Example.good 1] Example.malformed [Example.good 1]).
  - repeat split; simpl; [lia|].
    constructor; [vm_compute; reflexivity | constructor].
  - reflexivity.
Defined.

Lemma Verify_offline_SET_failure_witness :
  Verify Example.ext (Example.offlineVerifier 1)
    (Example.entity [Example.unknownLog]) =
  (Err Example.badSET,
   fetchCalls
     ++ callsOfEntries Example.ext (Example.offlineVerifier 1)
          (GetSignature Example.sigContent) Example.verContent []
     ++ [CallValidateEntry Example.unknownLog;
         CallVerifySET Example.unknownLog]).
Proof.
  apply (Verify_offline_SET_failure Example.ext (Example.offlineVerifier 1)
           (Example.entity [Example.unknownLog])
           Example.sigContent Example.verContent
           [] Example.unknownLog []).
  - reflexivity.
  - repeat split; simpl; [lia | constructor].
  - reflexivity.
  - vm_compute; reflexivity.
Defined.

Lemma Verify_online_resolution_failure_witness :
  Verify Example.extDown (Example.onlineVerifier 1)
    (Example.entity [Example.good 1]) =
  (Err Example.unreachable,
   [CallTlogEntries; CallSignatureContent; CallVerificationContent;
    CallValidateEntry (Example.good 1);
    CallGetRekorClient "https://rekor.example"]).
Proof.
  apply (Verify_online_resolution_failure Example.extDown
           (Example.onlineVerifier 1) (Example.entity [Example.good 1])
           Example.sigContent Example.verContent
           [] (Example.good 1) [] Example.rekor Example.unreachable).
  - reflexivity.
  - repeat split; simpl; [lia | constructor].
  - reflexivity.
  - vm_compute; reflexivity.
  - reflexivity.
Defined.

Lemma Verify_online_query_failure_witness :
  Verify Example.ext (Example.onlineVerifier 1)
    (Example.entity [Example.good 7]) =
  (Err Example.searchFailed,
   [CallTlogEntries; CallSignatureContent; CallVerificationContent;
    CallValidateEntry (Example.good 7);
    CallGetRekorClient "https://rekor.example";
    CallGetPublicKey "https://rekor.example"%string;
    CallPemDecode "-----BEGIN PUBLIC KEY-----";
    CallParsePKIXPublicKey [Byte.x30];
    CallLoadVerifier 7%nat;
    CallSearchLogQuery "https://rekor.example"%string [7]]).
Proof.
  apply (Verify_online_query_failure Example.ext (Example.onlineVerifier 1)
           (Example.entity [Example.good 7])
           Example.sigContent Example.verContent
           [] (Example.good 7) [] Example.rekor
           "https://rekor.example"%string 7%nat Example.searchFailed).
  - reflexivity.
  - repeat split; simpl; [lia | constructor].
  - reflexivity.
  - vm_compute; reflexivity.
  - reflexivity.
  - reflexivity.
Defined.

Lemma Verify_online_record_failure_witness :
  Verify Example.extTampered (Example.onlineVerifier 1)
    (Example.entity [Example.good 1]) =
  (Err Example.badProof,
   [CallTlogEntries; CallSignatureContent; CallVerificationContent;
    CallValidateEntry (Example.good 1);
    CallGetRekorClient "https://rekor.example";
    CallGetPublicKey "https://rekor.example"%string;
    CallPemDecode "-----BEGIN PUBLIC KEY-----";
    CallParsePKIXPublicKey [Byte.x30];
    CallLoadVerifier 7%nat;
    CallSearchLogQuery "https://rekor.example"%string [1];
    CallVerifyLogEntry 1%nat 7%nat;
    CallVerifyLogEntry 2%nat 7%nat]).
Proof.
  apply (Verify_online_record_failure Example.extTampered
           (Example.onlineVerifier 1) (Example.entity [Example.good 1])
           Example.sigContent Example.verContent
           [] (Example.good 1) [] Example.rekor
           "https://rekor.example"%string 7%nat
           [("uuid-1"%string, 1%nat)] [("uuid-3"%string, 1%nat)]
           "uuid-2"%string 2%nat Example.badProof).
  - reflexivity.
  - repeat split; simpl; [lia | constructor].
  - reflexivity.
  - vm_compute; reflexivity.
  - reflexivity.
  - reflexivity.
  - constructor; [reflexivity | constructor].
  - reflexivity.
Defined.


Lemma Verify_online_success_calls_witness :
  countCalls isGetRekorClient
    (calls (Verify Example.ext (Example.onlineVerifier 2)
              (Example.entity [Example.good 1; Example.good 1]))) = 2%nat /\
  countCalls isSearchLogQuery
    (calls (Verify Example.ext (Example.onlineVerifier 2)
              (Example.entity [Example.good 1; Example.good 1]))) = 2%nat.
Proof.
  apply (Verify_online_success_calls Example.ext (Example.onlineVerifier 2)
           (Example.entity [Example.good 1; Example.good 1])
           [Example.good 1; Example.good 1]).
  - reflexivity.
  - reflexivity.
  - vm_compute; reflexivity.
Defined.

Lemma Verify_threshold_counts_duplicates_witness :
  succeeds (Verify Example.ext (Example.offlineVerifier 3)
              (Example.entity (replicate 3 (Example.good 1)))).
Proof.
  apply (Verify_threshold_counts_duplicates Example.ext
           (Example.offlineVerifier 3)
           (Example.entity (replicate 3 (Example.good 1)))
           Example.sigContent Example.verContent (Example.good 1) 3).
  - reflexivity.
  - simpl. lia.
  - reflexivity.
  - reflexivity.
  - vm_compute; reflexivity.
Defined.
